(** * pdtypes: the scalar coercion kernel ([pdtypes/apply.py], [pdtypes/parse.py])

    A shallow embedding of the conversion rules, the string inferencer and
    the seven memoised entry points, followed by the properties of the
    specification that were checked against them.

    Conventions of the embedding.
    - A Python call either returns a value or raises: [outcome].
    - A Python [float] is a finite rational, an infinity or NaN ([pyfloat]);
      arithmetic on finite values is exact.
    - [datetime]/[Timestamp] and [timedelta]/[Timedelta] values carry whole
      microseconds, the resolution of [timestamp()] and [total_seconds()].
    - Builtins and pandas functions whose text is not part of the repository
      ([int(str)], [pd.to_timedelta], [to_utc], ...) are the fields of the
      class [Externals]. *)

From Stdlib Require Import ZArith QArith Qabs Qround String Ascii List Bool Lia Lqa.
Import ListNotations.
Local Open Scope Z_scope.

Set Implicit Arguments.

(** ** Exceptions and outcomes *)

Inductive exn : Type :=
| ValueError | KeyError | TypeError | NameError | OverflowError | AttributeError.

Definition exn_eqb (a b : exn) : bool :=
  match a, b with
  | ValueError, ValueError | KeyError, KeyError | TypeError, TypeError
  | NameError, NameError | OverflowError, OverflowError
  | AttributeError, AttributeError => true
  | _, _ => false
  end.

Inductive outcome (A : Type) : Type :=
| Return (a : A)
| Raise (e : exn).

Arguments Return {A} a.
Arguments Raise {A} e.

Definition bind {A B : Type} (m : outcome A) (k : A -> outcome B) : outcome B :=
  match m with
  | Return a => k a
  | Raise e => Raise e
  end.

Notation "x <- m ;; k" := (bind m (fun x => k))
  (at level 61, m at next level, right associativity).

(** [try: m  except (e1, ..., en): handler] *)
Definition try_except {A : Type} (m : outcome A) (caught : list exn)
           (handler : outcome A) : outcome A :=
  match m with
  | Return a => Return a
  | Raise e => if existsb (exn_eqb e) caught then handler else Raise e
  end.

(** ** Floats *)

Inductive pyfloat : Type :=
| Fin (q : Q)
| PosInf
| NegInf
| NaN.

Definition Qltb (x y : Q) : bool := (Qnum x * QDen y <? Qnum y * QDen x)%Z.

Definition Qeqb (x y : Q) : bool := (Qnum x * QDen y =? Qnum y * QDen x)%Z.

Definition f_neg (a : pyfloat) : pyfloat :=
  match a with
  | Fin q => Fin (- q)%Q
  | PosInf => NegInf
  | NegInf => PosInf
  | NaN => NaN
  end.

Definition f_add (a b : pyfloat) : pyfloat :=
  match a, b with
  | NaN, _ | _, NaN => NaN
  | Fin x, Fin y => Fin (x + y)%Q
  | PosInf, NegInf | NegInf, PosInf => NaN
  | PosInf, _ | _, PosInf => PosInf
  | NegInf, _ | _, NegInf => NegInf
  end.

Definition f_sub (a b : pyfloat) : pyfloat := f_add a (f_neg b).

Definition f_abs (a : pyfloat) : pyfloat :=
  match a with
  | Fin q => Fin (Qabs q)
  | PosInf | NegInf => PosInf
  | NaN => NaN
  end.

(** [a < b]; every comparison with NaN is false. *)
Definition f_ltb (a b : pyfloat) : bool :=
  match a, b with
  | NaN, _ | _, NaN => false
  | Fin x, Fin y => Qltb x y
  | NegInf, NegInf => false
  | NegInf, _ => true
  | _, NegInf => false
  | PosInf, _ => false
  | Fin _, PosInf => true
  end.

(** [a != 0], the truth value of a float (NaN is truthy). *)
Definition f_nonzero (a : pyfloat) : bool :=
  match a with
  | Fin q => negb (Qeqb q 0%Q)
  | _ => true
  end.

Definition f_is_nan (a : pyfloat) : bool :=
  match a with NaN => true | _ => false end.

Definition f_of_Z (z : Z) : pyfloat := Fin (inject_Z z).

(** [abs(complex(re, im)) < t].  The modulus is infinite as soon as one part
    is, NaN when a part is NaN and none is infinite, and [sqrt(re^2+im^2)]
    otherwise; the comparison with a finite [t] is decided on the squares. *)
Definition c_abs_ltb (re im t : pyfloat) : bool :=
  match re, im with
  | Fin x, Fin y =>
      match t with
      | Fin b => Qltb 0%Q b && Qltb (x * x + y * y)%Q (b * b)%Q
      | PosInf => true
      | _ => false
      end
  | _, _ => false
  end.

(** [np.round] on a real: the nearest integer, ties to the even one. *)
Definition round_half_even (q : Q) : Z :=
  let f := Qfloor q in
  match (q - inject_Z f ?= 1 # 2)%Q with
  | Lt => f
  | Gt => f + 1
  | Eq => if Z.even f then f else f + 1
  end.

(** [int(x)] on a finite float: truncation towards zero. *)
Definition truncate (q : Q) : Z := Z.quot (Qnum q) (QDen q).

Definition np_round_f (a : pyfloat) : pyfloat :=
  match a with
  | Fin q => Fin (inject_Z (round_half_even q))
  | _ => a
  end.

(** [int(a)] for a float [a]. *)
Definition int_of_float (a : pyfloat) : outcome Z :=
  match a with
  | Fin q => Return (truncate q)
  | PosInf | NegInf => Raise OverflowError
  | NaN => Raise ValueError
  end.

(** ** Values *)

Inductive pytype : Type :=
| TInt | TFloat | TComplex | TBool | TStr
| TDatetime        (* datetime.datetime *)
| TTimestamp       (* pd.Timestamp *)
| TTimedelta       (* datetime.timedelta *)
| TPdTimedelta     (* pd.Timedelta *)
| TObject          (* object *)
| TNoneType | TNAType | TNaTType | TType.

Definition pytype_eqb (a b : pytype) : bool :=
  match a, b with
  | TInt, TInt | TFloat, TFloat | TComplex, TComplex | TBool, TBool
  | TStr, TStr | TDatetime, TDatetime | TTimestamp, TTimestamp
  | TTimedelta, TTimedelta | TPdTimedelta, TPdTimedelta | TObject, TObject
  | TNoneType, TNoneType | TNAType, TNAType | TNaTType, TNaTType
  | TType, TType => true
  | _, _ => false
  end.

(** An instant: microseconds since the epoch, and the UTC offset in seconds
    when the value is timezone-aware. *)
Record datetime_val : Type :=
  { dt_pandas : bool; dt_epoch_us : Z; dt_utcoffset : option Z }.

Record timedelta_val : Type := { td_pandas : bool; td_us : Z }.

Inductive pyval : Type :=
| PyNone
| PdNA
| PdNaT
| PyInt (z : Z)
| PyFloat (f : pyfloat)
| PyComplex (re im : pyfloat)
| PyBool (b : bool)
| PyStr (s : string)
| PyDatetime (d : datetime_val)
| PyTimedelta (t : timedelta_val)
| PyObject (id : nat)        (* a bare [object()] *)
| PyType (t : pytype).       (* a class used as a value *)

Definition np_nan : pyval := PyFloat NaN.

Definition type_of (x : pyval) : pytype :=
  match x with
  | PyNone => TNoneType
  | PdNA => TNAType
  | PdNaT => TNaTType
  | PyInt _ => TInt
  | PyFloat _ => TFloat
  | PyComplex _ _ => TComplex
  | PyBool _ => TBool
  | PyStr _ => TStr
  | PyDatetime d => if dt_pandas d then TTimestamp else TDatetime
  | PyTimedelta t => if td_pandas t then TPdTimedelta else TTimedelta
  | PyObject _ => TObject
  | PyType _ => TType
  end.

(** [pd.isnull] on a scalar. *)
Definition isnull (x : pyval) : bool :=
  match x with
  | PyNone | PdNA | PdNaT => true
  | PyFloat f => f_is_nan f
  | PyComplex re im => f_is_nan re || f_is_nan im
  | _ => false
  end.

(** The semantic kinds [parse_dtype] answers with: the classes [int],
    [float], [complex], [bool], [datetime], [timedelta], [object], [str]. *)
Inductive kind : Type :=
| KInt | KFloat | KComplex | KBool | KDatetime | KTimedelta | KObject | KStr.

Definition kind_eqb (a b : kind) : bool :=
  match a, b with
  | KInt, KInt | KFloat, KFloat | KComplex, KComplex | KBool, KBool
  | KDatetime, KDatetime | KTimedelta, KTimedelta | KObject, KObject
  | KStr, KStr => true
  | _, _ => false
  end.

(** ** What the repository imports

    Builtins, numpy and pandas functions, and [to_utc] of
    [pdtypes.util.parse], none of which has its text in the repository. *)
Class Externals : Type :=
  { (* [int(s)], [float(s)], [complex(s)] on a string *)
    int_of_str : string -> outcome Z;
    float_of_str : string -> outcome pyfloat;
    complex_of_str : string -> outcome (pyfloat * pyfloat);
    (* [pd.to_timedelta(s)], [pd.to_datetime(s)] *)
    pd_to_timedelta : string -> outcome pyval;
    pd_to_datetime : string -> outcome pyval;
    (* [str(x)] *)
    py_str : pyval -> string;
    (* [to_utc(x)] *)
    to_utc : pyval -> outcome pyval;
    (* [d.isoformat()], [d.strftime(format)] *)
    dt_isoformat : datetime_val -> string;
    dt_strftime : datetime_val -> string -> string;
    (* [cls(x)] where the constructor is not a numeric builtin on a number *)
    construct_ext : pytype -> pyval -> outcome pyval;
    (* [a == b] outside the numeric tower *)
    eq_ext : pyval -> pyval -> outcome bool;
    (* [pd.api.types.is_*_dtype] *)
    is_integer_dtype : pyval -> bool;
    is_float_dtype : pyval -> bool;
    is_complex_dtype : pyval -> bool;
    is_bool_dtype : pyval -> bool;
    is_datetime64_any_dtype : pyval -> bool;
    is_timedelta64_dtype : pyval -> bool;
    is_object_dtype : pyval -> bool;
    is_string_dtype : pyval -> bool }.

(** ** Primitive operations *)

Section Primitives.
Context {E : Externals}.

(** The numeric tower: [bool] and [int] are integers, then floats, then
    complex numbers. *)
Inductive num : Type :=
| NumZ (z : Z)
| NumF (f : pyfloat)
| NumC (re im : pyfloat).

Definition as_num (x : pyval) : option num :=
  match x with
  | PyInt z => Some (NumZ z)
  | PyBool b => Some (NumZ (Z.b2z b))
  | PyFloat f => Some (NumF f)
  | PyComplex re im => Some (NumC re im)
  | _ => None
  end.

Definition num_re (n : num) : pyfloat :=
  match n with
  | NumZ z => f_of_Z z
  | NumF f => f
  | NumC re _ => re
  end.

Definition num_im (n : num) : pyfloat :=
  match n with
  | NumC _ im => im
  | _ => Fin 0%Q
  end.

(** [a - b] *)
Definition py_sub (a b : pyval) : outcome pyval :=
  match as_num a, as_num b with
  | Some (NumZ x), Some (NumZ y) => Return (PyInt (x - y))
  | Some (NumC r1 i1), Some n => Return (PyComplex (f_sub r1 (num_re n)) (f_sub i1 (num_im n)))
  | Some n, Some (NumC r2 i2) => Return (PyComplex (f_sub (num_re n) r2) (f_sub (num_im n) i2))
  | Some n, Some m => Return (PyFloat (f_sub (num_re n) (num_re m)))
  | _, _ => Raise TypeError
  end.

(** [abs(x) < ftol] *)
Definition abs_lt (x : pyval) (ftol : pyfloat) : outcome bool :=
  match as_num x with
  | Some (NumZ z) => Return (f_ltb (f_of_Z (Z.abs z)) ftol)
  | Some (NumF f) => Return (f_ltb (f_abs f) ftol)
  | Some (NumC re im) => Return (c_abs_ltb re im ftol)
  | None => Raise TypeError
  end.

(** [a == b] *)
Definition py_eq (a b : pyval) : outcome bool :=
  match as_num a, as_num b with
  | Some (NumZ x), Some (NumZ y) => Return (x =? y)
  | Some n, Some m =>
      Return (match num_re n, num_re m, num_im n, num_im m with
              | Fin r1, Fin r2, Fin i1, Fin i2 => Qeqb r1 r2 && Qeqb i1 i2
              | PosInf, PosInf, Fin i1, Fin i2 => Qeqb i1 i2
              | NegInf, NegInf, Fin i1, Fin i2 => Qeqb i1 i2
              | _, _, _, _ => false
              end)
  | _, _ => eq_ext a b
  end.

(** [x.real] and [x.imag] *)
Definition py_real (x : pyval) : outcome pyval :=
  match x with
  | PyInt z => Return (PyInt z)
  | PyBool b => Return (PyInt (Z.b2z b))
  | PyFloat f => Return (PyFloat f)
  | PyComplex re _ => Return (PyFloat re)
  | _ => Raise AttributeError
  end.

Definition py_imag (x : pyval) : outcome pyval :=
  match x with
  | PyInt _ | PyBool _ => Return (PyInt 0)
  | PyFloat _ => Return (PyFloat (Fin 0%Q))
  | PyComplex _ im => Return (PyFloat im)
  | _ => Raise AttributeError
  end.

(** [np.round(x)] *)
Definition np_round (x : pyval) : outcome pyval :=
  match x with
  | PyInt z => Return (PyInt z)
  | PyFloat f => Return (PyFloat (np_round_f f))
  | PyComplex re im => Return (PyComplex (np_round_f re) (np_round_f im))
  | _ => Raise TypeError
  end.

(** [cls(x)]: the numeric builtins on numbers and strings, [bool] on the
    values with a fixed truth value, [str] on anything; every other
    constructor call is left to [construct_ext]. *)
Definition call_type (cls : pytype) (x : pyval) : outcome pyval :=
  match cls, x with
  | TInt, PyInt z => Return (PyInt z)
  | TInt, PyBool b => Return (PyInt (Z.b2z b))
  | TInt, PyFloat f => z <- int_of_float f ;; Return (PyInt z)
  | TInt, PyStr s => z <- int_of_str s ;; Return (PyInt z)
  | TInt, PyComplex _ _ => Raise TypeError
  | TFloat, PyInt z => Return (PyFloat (f_of_Z z))
  | TFloat, PyBool b => Return (PyFloat (f_of_Z (Z.b2z b)))
  | TFloat, PyFloat f => Return (PyFloat f)
  | TFloat, PyStr s => f <- float_of_str s ;; Return (PyFloat f)
  | TFloat, PyComplex _ _ => Raise TypeError
  | TComplex, PyInt z => Return (PyComplex (f_of_Z z) (Fin 0%Q))
  | TComplex, PyBool b => Return (PyComplex (f_of_Z (Z.b2z b)) (Fin 0%Q))
  | TComplex, PyFloat f => Return (PyComplex f (Fin 0%Q))
  | TComplex, PyComplex re im => Return (PyComplex re im)
  | TComplex, PyStr s => c <- complex_of_str s ;; Return (PyComplex (fst c) (snd c))
  | TBool, PyNone => Return (PyBool false)
  | TBool, PyInt z => Return (PyBool (negb (z =? 0)))
  | TBool, PyBool b => Return (PyBool b)
  | TBool, PyFloat f => Return (PyBool (f_nonzero f))
  | TBool, PyComplex re im => Return (PyBool (f_nonzero re || f_nonzero im))
  | TBool, PyStr s => Return (PyBool (negb (String.eqb s EmptyString)))
  | TStr, _ => Return (PyStr (py_str x))
  | _, _ => construct_ext cls x
  end.

(** A real number of seconds as whole microseconds. *)
Definition us_of_seconds (x : pyval) : outcome Z :=
  match as_num x with
  | Some (NumZ z) => Return (z * 1000000)
  | Some (NumF (Fin q)) => Return (round_half_even (q * inject_Z 1000000)%Q)
  | Some (NumF NaN) => Raise ValueError
  | Some (NumF _) => Raise OverflowError
  | _ => Raise TypeError
  end.

(** [cls.fromtimestamp(arg, tz=timezone.utc)]: the attribute is looked up
    before the argument is evaluated. *)
Definition fromtimestamp_utc (cls : pytype) (arg : outcome pyval) : outcome pyval :=
  match cls with
  | TTimestamp | TDatetime =>
      x <- arg ;;
      us <- us_of_seconds x ;;
      Return (PyDatetime {| dt_pandas := pytype_eqb cls TTimestamp;
                            dt_epoch_us := us;
                            dt_utcoffset := Some 0 |})
  | _ => Raise AttributeError
  end.

(** The same on any receiver: a class, or an instance of a datetime class
    (which finds the class method); nothing else has the attribute. *)
Definition fromtimestamp_utc_on (receiver : pyval) (arg : outcome pyval) : outcome pyval :=
  match receiver with
  | PyType cls => fromtimestamp_utc cls arg
  | PyDatetime _ => fromtimestamp_utc (type_of receiver) arg
  | _ => Raise AttributeError
  end.

(** [cls(seconds=x)] *)
Definition of_seconds (cls : pytype) (x : pyval) : outcome pyval :=
  match cls with
  | TTimedelta | TPdTimedelta =>
      us <- us_of_seconds x ;;
      Return (PyTimedelta {| td_pandas := pytype_eqb cls TPdTimedelta;
                             td_us := us |})
  | _ => Raise TypeError
  end.

(** [x.timestamp()] and [x.total_seconds()] *)
Definition py_timestamp (x : pyval) : outcome pyval :=
  match x with
  | PyDatetime d => Return (PyFloat (Fin (dt_epoch_us d # 1000000)))
  | _ => Raise AttributeError
  end.

Definition py_total_seconds (x : pyval) : outcome pyval :=
  match x with
  | PyTimedelta t => Return (PyFloat (Fin (td_us t # 1000000)))
  | _ => Raise AttributeError
  end.

(** [x.isoformat()] and [x.strftime(format)] *)
Definition py_isoformat (x : pyval) : outcome pyval :=
  match x with
  | PyDatetime d => Return (PyStr (dt_isoformat d))
  | _ => Raise AttributeError
  end.

Definition py_strftime (x : pyval) (format : string) : outcome pyval :=
  match x with
  | PyDatetime d => Return (PyStr (dt_strftime d format))
  | _ => Raise AttributeError
  end.

End Primitives.

(** ** Calls with keyword arguments

    Every function of the kernel takes the element positionally and its
    options by keyword.  A keyword the function does not declare makes the
    call raise [TypeError] before the body runs. *)

Inductive kwname : Type := kw_round | kw_force | kw_ftol | kw_format | kw_return_type.

Definition kwname_eqb (a b : kwname) : bool :=
  match a, b with
  | kw_round, kw_round | kw_force, kw_force | kw_ftol, kw_ftol
  | kw_format, kw_format | kw_return_type, kw_return_type => true
  | _, _ => false
  end.

Record kwargs : Type :=
  { k_round : option bool;
    k_force : option bool;
    k_ftol : option pyfloat;
    k_format : option (option string);
    k_return_type : option pytype }.

Definition no_kw : kwargs :=
  {| k_round := None; k_force := None; k_ftol := None; k_format := None;
     k_return_type := None |}.

Definition set_round (b : bool) (kw : kwargs) : kwargs :=
  {| k_round := Some b; k_force := k_force kw; k_ftol := k_ftol kw;
     k_format := k_format kw; k_return_type := k_return_type kw |}.

Definition set_force (b : bool) (kw : kwargs) : kwargs :=
  {| k_round := k_round kw; k_force := Some b; k_ftol := k_ftol kw;
     k_format := k_format kw; k_return_type := k_return_type kw |}.

Definition set_ftol (f : pyfloat) (kw : kwargs) : kwargs :=
  {| k_round := k_round kw; k_force := k_force kw; k_ftol := Some f;
     k_format := k_format kw; k_return_type := k_return_type kw |}.

Definition set_format (s : option string) (kw : kwargs) : kwargs :=
  {| k_round := k_round kw; k_force := k_force kw; k_ftol := k_ftol kw;
     k_format := Some s; k_return_type := k_return_type kw |}.

Definition set_return_type (t : pytype) (kw : kwargs) : kwargs :=
  {| k_round := k_round kw; k_force := k_force kw; k_ftol := k_ftol kw;
     k_format := k_format kw; k_return_type := Some t |}.

Definition present {A : Type} (n : kwname) (o : option A) : list kwname :=
  match o with Some _ => [n] | None => [] end.

Definition passed (kw : kwargs) : list kwname :=
  present kw_round (k_round kw) ++ present kw_force (k_force kw)
  ++ present kw_ftol (k_ftol kw) ++ present kw_format (k_format kw)
  ++ present kw_return_type (k_return_type kw).

Definition default {A : Type} (o : option A) (d : A) : A :=
  match o with Some a => a | None => d end.

Record pyfun : Type :=
  { fn_keywords : list kwname;
    fn_body : kwargs -> pyval -> outcome pyval }.

(** [f(x, **kw)] *)
Definition call (f : pyfun) (kw : kwargs) (x : pyval) : outcome pyval :=
  if forallb (fun n => existsb (kwname_eqb n) (fn_keywords f)) (passed kw)
  then fn_body f kw x
  else Raise TypeError.

(** The default tolerance, [1e-6]. *)
Definition default_ftol : pyfloat := Fin (1 # 1000000).

(** [a or b], [b] evaluated only when [a] is false. *)
Definition or_else (a : bool) (b : outcome bool) : outcome bool :=
  if a then Return true else b.

(** ** [pdtypes/parse.py] *)

Module Parse.
Section WithExternals.
Context {E : Externals}.

(** [dtype in (datetime, pd.Timestamp)] and [dtype in (timedelta, pd.Timedelta)] *)
Definition in_datetime_classes (dtype : pyval) : bool :=
  match dtype with
  | PyType TDatetime | PyType TTimestamp => true
  | _ => false
  end.

Definition in_timedelta_classes (dtype : pyval) : bool :=
  match dtype with
  | PyType TTimedelta | PyType TPdTimedelta => true
  | _ => false
  end.

Definition parse_dtype (dtype : pyval) : outcome kind :=
  if is_integer_dtype dtype then Return KInt
  else if is_float_dtype dtype then Return KFloat
  else if is_complex_dtype dtype then Return KComplex
  else if is_bool_dtype dtype then Return KBool
  else if is_datetime64_any_dtype dtype || in_datetime_classes dtype
       then Return KDatetime
  else if is_timedelta64_dtype dtype || in_timedelta_classes dtype
       then Return KTimedelta
  else if is_object_dtype dtype then Return KObject
  else if is_string_dtype dtype then Return KStr
  else Raise TypeError.

(** [str.strip()] and [str.lower()] on ASCII text. *)
Definition is_space (c : ascii) : bool :=
  let n := nat_of_ascii c in
  ((9 <=? n) && (n <=? 13) || (28 <=? n) && (n <=? 32))%nat.

Fixpoint lstrip (s : string) : string :=
  match s with
  | String c r => if is_space c then lstrip r else s
  | EmptyString => EmptyString
  end.

Fixpoint rstrip (s : string) : string :=
  match s with
  | String c r =>
      match rstrip r with
      | EmptyString => if is_space c then EmptyString else String c EmptyString
      | r' => String c r'
      end
  | EmptyString => EmptyString
  end.

Definition strip (s : string) : string := rstrip (lstrip s).

Definition lower_char (c : ascii) : ascii :=
  let n := nat_of_ascii c in
  if ((65 <=? n) && (n <=? 90))%nat then ascii_of_nat (n + 32) else c.

Fixpoint lower (s : string) : string :=
  match s with
  | String c r => String (lower_char c) (lower r)
  | EmptyString => EmptyString
  end.

Definition str_in (s : string) (l : list string) : bool :=
  existsb (String.eqb s) l.

Definition parse_string (string : string) : outcome pyval :=
  try_except (z <- int_of_str string ;; Return (PyInt z))
    [TypeError; ValueError]
  (try_except (f <- float_of_str string ;; Return (PyFloat f))
    [TypeError; ValueError]
  (try_except (c <- complex_of_str string ;; Return (PyComplex (fst c) (snd c)))
    [TypeError; ValueError]
  (try_except (pd_to_timedelta string)
    [ValueError]
  (try_except (pd_to_datetime string)
    [ValueError]
  (let lower := lower (strip string) in
   if str_in lower ["t"; "true"]%string then Return (PyBool true)
   else if str_in lower ["f"; "false"]%string then Return (PyBool false)
   else Return (PyStr string)))))).

(** [parse_string] as a callable: it declares no keyword. *)
Definition parse_string_fn : pyfun :=
  {| fn_keywords := [];
     fn_body := fun _ x =>
       match x with
       | PyStr s => parse_string s
       | _ => Raise TypeError
       end |}.

End WithExternals.
End Parse.

(** ** [pdtypes/apply.py]: the conversion rules

    Each rule is written with its parameters in the order of the source; the
    defaults of the source are applied where the rule is entered in the
    module namespace below.  The text of the error messages, and the call of
    [error_trace] inside them, are left out. *)

Module Apply.
Section WithExternals.
Context {E : Externals}.

(** The shared body of the rules that narrow a real number of seconds or a
    number to an integer:
<<
    rounded = np.round(x)
    if round or abs(rounded - y) < ftol: result = return_type(rounded)
    else:                                result = return_type(x)
    if force or abs(result - y) < ftol:  return result
    raise ValueError
>>
    where [x] is [element.real], [timestamp] or [seconds] and [y] is
    [element], [timestamp] or [seconds]. *)
Definition narrow_to_integer (x y : pyval) (round force : bool)
           (ftol : pyfloat) (return_type : pytype) : outcome pyval :=
  rounded <- np_round x ;;
  snap <- or_else round (d <- py_sub rounded y ;; abs_lt d ftol) ;;
  result <- (if snap then call_type return_type rounded
             else call_type return_type x) ;;
  ok <- or_else force (d <- py_sub result y ;; abs_lt d ftol) ;;
  if ok then Return result else Raise ValueError.

(** The same without the [round] flag, as the rules to [bool] have it. *)
Definition narrow_to_boolean (x y : pyval) (force : bool)
           (ftol : pyfloat) (return_type : pytype) : outcome pyval :=
  rounded <- np_round x ;;
  snap <- (d <- py_sub rounded y ;; abs_lt d ftol) ;;
  result <- (if snap then call_type return_type rounded
             else call_type return_type x) ;;
  ok <- or_else force (d <- py_sub result y ;; abs_lt d ftol) ;;
  if ok then Return result else Raise ValueError.

(** *** From integers *)

Definition integer_to_float (element : pyval) (return_type : pytype) : outcome pyval :=
  if isnull element then Return np_nan
  else call_type return_type element.

Definition integer_to_complex (element : pyval) (return_type : pytype) : outcome pyval :=
  if isnull element then Return np_nan
  else call_type return_type element.

Definition integer_to_string (element : pyval) (return_type : pytype) : outcome pyval :=
  if isnull element then Return PyNone
  else call_type return_type element.

Definition integer_to_boolean (element : pyval) (force : bool)
           (return_type : pytype) : outcome pyval :=
  if isnull element then Return PdNA
  else
    result <- call_type return_type element ;;
    same <- py_eq result element ;;
    if same || force then Return result else Raise ValueError.

Definition integer_to_datetime (element : pyval) (return_type : pytype) : outcome pyval :=
  if isnull element then Return PdNaT
  else fromtimestamp_utc return_type (Return element).

Definition integer_to_timedelta (element : pyval) (return_type : pytype) : outcome pyval :=
  if isnull element then Return PdNaT
  else s <- call_type TInt element ;; of_seconds return_type s.

(** *** From floats *)

Definition float_to_integer (element : pyval) (force round : bool)
           (ftol : pyfloat) (return_type : pytype) : outcome pyval :=
  if isnull element then Return np_nan
  else
    re <- py_real element ;;
    narrow_to_integer re element round force ftol return_type.

Definition float_to_complex (element : pyval) (return_type : pytype) : outcome pyval :=
  if isnull element then Return np_nan
  else call_type return_type element.

Definition float_to_string (element : pyval) (return_type : pytype) : outcome pyval :=
  if isnull element then Return PyNone
  else call_type return_type element.

Definition _float_to_boolean (element : pyval) (force : bool)
           (ftol : pyfloat) (return_type : pytype) : outcome pyval :=
  if isnull element then Return PdNA
  else
    re <- py_real element ;;
    narrow_to_boolean re element force ftol return_type.

Definition _float_to_datetime (element : pyval) (return_type : pytype) : outcome pyval :=
  if isnull element then Return PdNaT
  else fromtimestamp_utc return_type (call_type TFloat element).

Definition _float_to_timedelta (element : pyval) (return_type : pytype) : outcome pyval :=
  if isnull element then Return PdNaT
  else s <- call_type TFloat element ;; of_seconds return_type s.

(** *** From complex numbers *)

Definition _complex_to_integer (element : pyval) (round force : bool)
           (ftol : pyfloat) (return_type : pytype) : outcome pyval :=
  if isnull element then Return np_nan
  else
    re <- py_real element ;;
    narrow_to_integer re element round force ftol return_type.

(** [force or abs(element.imag) < ftol] *)
Definition imag_within (element : pyval) (force : bool) (ftol : pyfloat) : outcome bool :=
  or_else force (im <- py_imag element ;; abs_lt im ftol).

Definition _complex_to_float (element : pyval) (force : bool)
           (ftol : pyfloat) (return_type : pytype) : outcome pyval :=
  if isnull element then Return np_nan
  else
    ok <- imag_within element force ftol ;;
    if ok then re <- py_real element ;; call_type return_type re
    else Raise ValueError.

Definition _complex_to_string (element : pyval) (return_type : pytype) : outcome pyval :=
  if isnull element then Return PdNA
  else call_type return_type element.

Definition _complex_to_boolean (element : pyval) (force : bool)
           (ftol : pyfloat) (return_type : pytype) : outcome pyval :=
  if isnull element then Return PdNA
  else
    re <- py_real element ;;
    narrow_to_boolean re element force ftol return_type.

Definition _complex_to_datetime (element : pyval) (force : bool)
           (ftol : pyfloat) (return_type : pytype) : outcome pyval :=
  if isnull element then Return PdNaT
  else
    ok <- imag_within element force ftol ;;
    if ok then
      fromtimestamp_utc return_type
        (re <- py_real element ;; call_type TFloat re)
    else Raise ValueError.

Definition _complex_to_timedelta (element : pyval) (force : bool)
           (ftol : pyfloat) (return_type : pytype) : outcome pyval :=
  if isnull element then Return PdNaT
  else
    ok <- imag_within element force ftol ;;
    if ok then
      re <- py_real element ;;
      s <- call_type TFloat re ;;
      of_seconds return_type s
    else Raise ValueError.

(** *** From booleans *)

Definition _boolean_to_integer (element : pyval) (return_type : pytype) : outcome pyval :=
  if isnull element then Return np_nan
  else call_type return_type element.

Definition _boolean_to_float (element : pyval) (return_type : pytype) : outcome pyval :=
  if isnull element then Return np_nan
  else call_type return_type element.

Definition _boolean_to_complex (element : pyval) (return_type : pytype) : outcome pyval :=
  if isnull element then Return np_nan
  else call_type return_type element.

Definition _boolean_to_string (element : pyval) (return_type : pytype) : outcome pyval :=
  if isnull element then Return PdNA
  else call_type return_type element.

Definition _boolean_to_datetime (element : pyval) (return_type : pytype) : outcome pyval :=
  if isnull element then Return PdNaT
  else fromtimestamp_utc return_type (call_type TFloat element).

Definition _boolean_to_timedelta (element : pyval) (return_type : pytype) : outcome pyval :=
  if isnull element then Return PdNaT
  else s <- call_type TFloat element ;; of_seconds return_type s.

(** *** From datetimes *)

(** [to_utc(element).timestamp()] *)
Definition utc_timestamp (element : pyval) : outcome pyval :=
  u <- to_utc element ;; py_timestamp u.

Definition _datetime_to_integer (element : pyval) (round force : bool)
           (ftol : pyfloat) (return_type : pytype) : outcome pyval :=
  if isnull element then Return np_nan
  else
    timestamp <- utc_timestamp element ;;
    narrow_to_integer timestamp timestamp round force ftol return_type.

Definition _datetime_to_float (element : pyval) (return_type : pytype) : outcome pyval :=
  if isnull element then Return np_nan
  else timestamp <- utc_timestamp element ;; call_type return_type timestamp.

Definition _datetime_to_complex (element : pyval) (return_type : pytype) : outcome pyval :=
  if isnull element then Return np_nan
  else timestamp <- utc_timestamp element ;; call_type return_type timestamp.

Definition _datetime_to_string (element : pyval) (format : option string)
           (return_type : pytype) : outcome pyval :=
  if isnull element then Return PdNA
  else
    u <- to_utc element ;;
    match format with
    | None => s <- py_isoformat u ;; call_type return_type s
    | Some fmt => s <- py_strftime u fmt ;; call_type return_type s
    end.

(** [abs(result - x) < ftol or force], the comparison evaluated first. *)
Definition within_or_force (result x : pyval) (force : bool) (ftol : pyfloat) : outcome bool :=
  d <- py_sub result x ;;
  near <- abs_lt d ftol ;;
  Return (near || force).

Definition _datetime_to_boolean (element : pyval) (force : bool)
           (ftol : pyfloat) (return_type : pytype) : outcome pyval :=
  if isnull element then Return PdNA
  else
    timestamp <- utc_timestamp element ;;
    result <- call_type return_type timestamp ;;
    ok <- within_or_force result timestamp force ftol ;;
    if ok then Return result else Raise ValueError.

Definition _datetime_to_timedelta (element : pyval) (return_type : pytype) : outcome pyval :=
  if isnull element then Return PdNaT
  else timestamp <- utc_timestamp element ;; of_seconds return_type timestamp.

(** *** From timedeltas *)

Definition _timedelta_to_integer (element : pyval) (round force : bool)
           (ftol : pyfloat) (return_type : pytype) : outcome pyval :=
  if isnull element then Return np_nan
  else
    seconds <- py_total_seconds element ;;
    narrow_to_integer seconds seconds round force ftol return_type.

Definition _timedelta_to_float (element : pyval) (return_type : pytype) : outcome pyval :=
  if isnull element then Return np_nan
  else seconds <- py_total_seconds element ;; call_type return_type seconds.

Definition _timedelta_to_complex (element : pyval) (return_type : pytype) : outcome pyval :=
  if isnull element then Return np_nan
  else seconds <- py_total_seconds element ;; call_type return_type seconds.

Definition _timedelta_to_string (element : pyval) (return_type : pytype) : outcome pyval :=
  if isnull element then Return PdNA
  else call_type return_type element.

Definition _timedelta_to_boolean (element : pyval) (force : bool)
           (ftol : pyfloat) (return_type : pytype) : outcome pyval :=
  if isnull element then Return PdNA
  else
    seconds <- py_total_seconds element ;;
    result <- call_type return_type seconds ;;
    ok <- within_or_force result seconds force ftol ;;
    if ok then Return result else Raise ValueError.

Definition _timedelta_to_datetime (element : pyval) (return_type : pytype) : outcome pyval :=
  if isnull element then Return PdNaT
  else fromtimestamp_utc return_type (py_total_seconds element).


(** *** Names, [partial] and the conversion maps

    A rule is reached from a conversion map through its name in the module
    namespace, looked up when the map is built: [partial(f, **kw)] raises
    [NameError] when [f] is not bound.  The entries of a dict display are
    evaluated in the order they are written. *)

Definition callable : Type := pyval -> outcome pyval.

Definition namespace : Type := list (string * pyfun).

Definition resolve (globals : namespace) (name : string) : outcome pyfun :=
  match find (fun p => String.eqb (fst p) name) globals with
  | Some p => Return (snd p)
  | None => Raise NameError
  end.

Inductive binding : Type :=
| round_ (b : bool)
| force_ (b : bool)
| ftol_ (f : pyfloat)
| format_ (s : option string)
| return_type_ (t : pytype).

Definition bind_keyword (b : binding) (kw : kwargs) : kwargs :=
  match b with
  | round_ v => set_round v kw
  | force_ v => set_force v kw
  | ftol_ v => set_ftol v kw
  | format_ v => set_format v kw
  | return_type_ v => set_return_type v kw
  end.

Definition keywords (l : list binding) : kwargs := fold_right bind_keyword no_kw l.

(** [partial(name, **kw)] *)
Definition partial (globals : namespace) (name : string) (kw : list binding)
  : outcome callable :=
  f <- resolve globals name ;;
  Return (fun x => call f (keywords kw) x).

(** [lambda x: ...] *)
Definition lambda (f : callable) : outcome callable := Return f.

(** [{k1: v1, k2: v2, ...}] *)
Fixpoint dict (entries : list (kind * outcome callable))
  : outcome (list (kind * callable)) :=
  match entries with
  | [] => Return []
  | (k, v) :: rest =>
      f <- v ;;
      m <- dict rest ;;
      Return ((k, f) :: m)
  end.

(** [conversion_map[k]] *)
Definition getitem (m : list (kind * callable)) (k : kind) : outcome callable :=
  match find (fun p => kind_eqb (fst p) k) m with
  | Some p => Return (snd p)
  | None => Raise KeyError
  end.

(** The keys a dict display is written with. *)
Definition keys_of {A : Type} (entries : list (kind * A)) : list kind :=
  map fst entries.

(** The rules defined above, under the names the module binds them to, with
    the defaults of their signatures. *)
Definition rt (kw : kwargs) (d : pytype) : pytype := default (k_return_type kw) d.
Definition force_of (kw : kwargs) : bool := default (k_force kw) false.
Definition round_of (kw : kwargs) : bool := default (k_round kw) true.
Definition ftol_of (kw : kwargs) : pyfloat := default (k_ftol kw) default_ftol.
Definition format_of (kw : kwargs) : option string := default (k_format kw) None.

Definition def (keys : list kwname) (body : kwargs -> pyval -> outcome pyval) : pyfun :=
  {| fn_keywords := keys; fn_body := body |}.

Definition sig_rt : list kwname := [kw_return_type].
Definition sig_force_rt : list kwname := [kw_force; kw_return_type].
Definition sig_force_ftol_rt : list kwname := [kw_force; kw_ftol; kw_return_type].
Definition sig_round_force_ftol_rt : list kwname :=
  [kw_round; kw_force; kw_ftol; kw_return_type].

Definition rule_namespace : namespace :=
  [ ("integer_to_float", def sig_rt (fun kw x => integer_to_float x (rt kw TFloat)));
    ("integer_to_complex", def sig_rt (fun kw x => integer_to_complex x (rt kw TComplex)));
    ("integer_to_string", def sig_rt (fun kw x => integer_to_string x (rt kw TStr)));
    ("integer_to_boolean", def sig_force_rt
       (fun kw x => integer_to_boolean x (force_of kw) (rt kw TBool)));
    ("integer_to_datetime", def sig_rt (fun kw x => integer_to_datetime x (rt kw TTimestamp)));
    ("integer_to_timedelta", def sig_rt
       (fun kw x => integer_to_timedelta x (rt kw TPdTimedelta)));
    ("float_to_integer", def sig_round_force_ftol_rt
       (fun kw x => float_to_integer x (force_of kw) (round_of kw) (ftol_of kw) (rt kw TInt)));
    ("float_to_complex", def sig_rt (fun kw x => float_to_complex x (rt kw TComplex)));
    ("float_to_string", def sig_rt (fun kw x => float_to_string x (rt kw TStr)));
    ("_float_to_boolean", def sig_force_ftol_rt
       (fun kw x => _float_to_boolean x (force_of kw) (ftol_of kw) (rt kw TBool)));
    ("_float_to_datetime", def sig_rt (fun kw x => _float_to_datetime x (rt kw TTimestamp)));
    ("_float_to_timedelta", def sig_rt
       (fun kw x => _float_to_timedelta x (rt kw TPdTimedelta)));
    ("_complex_to_integer", def sig_round_force_ftol_rt
       (fun kw x => _complex_to_integer x (round_of kw) (force_of kw) (ftol_of kw) (rt kw TInt)));
    ("_complex_to_float", def sig_force_ftol_rt
       (fun kw x => _complex_to_float x (force_of kw) (ftol_of kw) (rt kw TFloat)));
    ("_complex_to_string", def sig_rt (fun kw x => _complex_to_string x (rt kw TStr)));
    ("_complex_to_boolean", def sig_force_ftol_rt
       (fun kw x => _complex_to_boolean x (force_of kw) (ftol_of kw) (rt kw TBool)));
    ("_complex_to_datetime", def sig_force_ftol_rt
       (fun kw x => _complex_to_datetime x (force_of kw) (ftol_of kw) (rt kw TTimestamp)));
    ("_complex_to_timedelta", def sig_force_ftol_rt
       (fun kw x => _complex_to_timedelta x (force_of kw) (ftol_of kw) (rt kw TPdTimedelta)));
    ("_boolean_to_integer", def sig_rt (fun kw x => _boolean_to_integer x (rt kw TInt)));
    ("_boolean_to_float", def sig_rt (fun kw x => _boolean_to_float x (rt kw TFloat)));
    ("_boolean_to_complex", def sig_rt (fun kw x => _boolean_to_complex x (rt kw TComplex)));
    ("_boolean_to_string", def sig_rt (fun kw x => _boolean_to_string x (rt kw TStr)));
    ("_boolean_to_datetime", def sig_rt
       (fun kw x => _boolean_to_datetime x (rt kw TTimestamp)));
    ("_boolean_to_timedelta", def sig_rt
       (fun kw x => _boolean_to_timedelta x (rt kw TPdTimedelta)));
    ("_datetime_to_integer", def sig_round_force_ftol_rt
       (fun kw x => _datetime_to_integer x (round_of kw) (force_of kw) (ftol_of kw) (rt kw TInt)));
    ("_datetime_to_float", def sig_rt (fun kw x => _datetime_to_float x (rt kw TFloat)));
    ("_datetime_to_complex", def sig_rt (fun kw x => _datetime_to_complex x (rt kw TComplex)));
    ("_datetime_to_string", def [kw_format; kw_return_type]
       (fun kw x => _datetime_to_string x (format_of kw) (rt kw TStr)));
    ("_datetime_to_boolean", def sig_force_ftol_rt
       (fun kw x => _datetime_to_boolean x (force_of kw) (ftol_of kw) (rt kw TBool)));
    ("_datetime_to_timedelta", def sig_rt
       (fun kw x => _datetime_to_timedelta x (rt kw TPdTimedelta)));
    ("_timedelta_to_integer", def sig_round_force_ftol_rt
       (fun kw x => _timedelta_to_integer x (round_of kw) (force_of kw) (ftol_of kw) (rt kw TInt)));
    ("_timedelta_to_float", def sig_rt (fun kw x => _timedelta_to_float x (rt kw TFloat)));
    ("_timedelta_to_complex", def sig_rt
       (fun kw x => _timedelta_to_complex x (rt kw TComplex)));
    ("_timedelta_to_string", def sig_rt (fun kw x => _timedelta_to_string x (rt kw TStr)));
    ("_timedelta_to_boolean", def sig_force_ftol_rt
       (fun kw x => _timedelta_to_boolean x (force_of kw) (ftol_of kw) (rt kw TBool)));
    ("_timedelta_to_datetime", def sig_rt
       (fun kw x => _timedelta_to_datetime x (rt kw TTimestamp))) ]%string.

(** *** From strings

    The rules from strings build a conversion map over the inferred kinds,
    infer the value with [parse_string] and apply the cell of the inferred
    kind.  [globals] is the namespace their names are looked up in. *)

Section StringRules.
Variable globals : namespace.

(** [parse_string(element, format=format)] *)
Definition infer (element : pyval) (format : option string) : outcome pyval :=
  call Parse.parse_string_fn (keywords [format_ format]) element.

(** [try: return conversion_map[k](x)  except (KeyError, ValueError): raise ValueError] *)
Definition apply_cell (conversion_map : list (kind * callable)) (k : kind)
           (x : pyval) : outcome pyval :=
  try_except (f <- getitem conversion_map k ;; f x)
             [KeyError; ValueError]
             (Raise ValueError).

Definition _string_to_integer_map (round force : bool) (ftol : pyfloat)
           (return_type : pytype) : list (kind * outcome callable) :=
  [ (KInt, lambda (fun x => call_type return_type x));
    (KFloat, partial globals "_float_to_integer"
       [round_ round; force_ force; ftol_ ftol; return_type_ return_type]);
    (KComplex, partial globals "_complex_to_integer"
       [round_ round; force_ force; ftol_ ftol; return_type_ return_type]);
    (KBool, partial globals "_boolean_to_integer" [return_type_ return_type]);
    (KDatetime, partial globals "_datetime_to_integer"
       [round_ round; force_ force; ftol_ ftol; return_type_ return_type]);
    (KTimedelta, partial globals "_timedelta_to_integer"
       [round_ round; force_ force; ftol_ ftol; return_type_ return_type]) ].

Definition _string_to_integer (element : pyval) (round force : bool)
           (ftol : pyfloat) (format : option string) (return_type : pytype)
  : outcome pyval :=
  if isnull element then Return np_nan
  else
    conversion_map <- dict (_string_to_integer_map round force ftol return_type) ;;
    parsed <- infer element format ;;
    parsed_dtype <- Parse.parse_dtype (PyType (type_of parsed)) ;;
    apply_cell conversion_map parsed_dtype parsed.

Definition _string_to_float_map (force : bool) (ftol : pyfloat)
           (return_type : pytype) : list (kind * outcome callable) :=
  [ (KInt, partial globals "_integer_to_float" [return_type_ return_type]);
    (KFloat, lambda (fun x => call_type return_type x));
    (KComplex, partial globals "_complex_to_float"
       [force_ force; ftol_ ftol; return_type_ return_type]);
    (KBool, partial globals "_boolean_to_float" [return_type_ return_type]);
    (KDatetime, partial globals "_datetime_to_float" [return_type_ return_type]);
    (KTimedelta, partial globals "_timedelta_to_float" [return_type_ return_type]) ].

Definition _string_to_float (element : pyval) (force : bool) (ftol : pyfloat)
           (format : option string) (return_type : pytype) : outcome pyval :=
  if isnull element then Return np_nan
  else
    conversion_map <- dict (_string_to_float_map force ftol return_type) ;;
    parsed <- infer element format ;;
    parsed_dtype <- Parse.parse_dtype parsed ;;
    apply_cell conversion_map parsed_dtype parsed.

Definition _string_to_complex_map (return_type : pytype)
  : list (kind * outcome callable) :=
  [ (KInt, partial globals "_integer_to_complex" [return_type_ return_type]);
    (KFloat, partial globals "_float_to_complex" [return_type_ return_type]);
    (KComplex, lambda (fun x => call_type return_type x));
    (KBool, partial globals "_boolean_to_complex" [return_type_ return_type]);
    (KDatetime, partial globals "_datetime_to_complex" [return_type_ return_type]);
    (KTimedelta, partial globals "_timedelta_to_complex" [return_type_ return_type]) ].

Definition _string_to_complex (element : pyval) (format : option string)
           (return_type : pytype) : outcome pyval :=
  if isnull element then Return np_nan
  else
    conversion_map <- dict (_string_to_complex_map return_type) ;;
    parsed <- infer element format ;;
    parsed_dtype <- Parse.parse_dtype parsed ;;
    apply_cell conversion_map parsed_dtype parsed.

Definition _string_to_boolean_map (force : bool) (ftol : pyfloat)
           (return_type : pytype) : list (kind * outcome callable) :=
  [ (KInt, partial globals "_integer_to_boolean"
       [force_ force; return_type_ return_type]);
    (KFloat, partial globals "_float_to_boolean"
       [force_ force; ftol_ ftol; return_type_ return_type]);
    (KComplex, partial globals "_complex_to_boolean"
       [force_ force; ftol_ ftol; return_type_ return_type]);
    (KBool, lambda (fun x => call_type return_type x));
    (KDatetime, partial globals "_datetime_to_boolean"
       [force_ force; ftol_ ftol; return_type_ return_type]);
    (KTimedelta, partial globals "_timedelta_to_boolean"
       [force_ force; ftol_ ftol; return_type_ return_type]) ].

Definition _string_to_boolean (element : pyval) (force : bool) (ftol : pyfloat)
           (format : option string) (return_type : pytype) : outcome pyval :=
  if isnull element then Return PdNA
  else
    conversion_map <- dict (_string_to_boolean_map force ftol return_type) ;;
    parsed <- infer element format ;;
    parsed_dtype <- Parse.parse_dtype parsed ;;
    apply_cell conversion_map parsed_dtype parsed.

(** [partial(_boolean_to_datetime, return_type(return_type))]: the class
    applied to itself is bound as the first positional argument, so that the
    parsed value arrives as [return_type]. *)
Definition partial_boolean_to_datetime (return_type : pytype) : outcome callable :=
  _ <- resolve globals "_boolean_to_datetime" ;;
  element <- call_type return_type (PyType return_type) ;;
  Return (fun parsed =>
            if isnull element then Return PdNaT
            else fromtimestamp_utc_on parsed (call_type TFloat element)).

Definition _string_to_datetime_map (force : bool) (ftol : pyfloat)
           (return_type : pytype) : list (kind * outcome callable) :=
  [ (KInt, partial globals "_integer_to_datetime" [return_type_ return_type]);
    (KFloat, partial globals "_float_to_datetime" [return_type_ return_type]);
    (KComplex, partial globals "_complex_to_datetime"
       [force_ force; ftol_ ftol; return_type_ return_type]);
    (KBool, partial_boolean_to_datetime return_type);
    (KDatetime, lambda (fun x => if pytype_eqb return_type TDatetime then Return x
                                 else call_type return_type x));
    (KTimedelta, partial globals "_timedelta_to_datetime" [return_type_ return_type]) ].

Definition _string_to_datetime (element : pyval) (force : bool) (ftol : pyfloat)
           (format : option string) (return_type : pytype) : outcome pyval :=
  if isnull element then Return PdNaT
  else
    conversion_map <- dict (_string_to_datetime_map force ftol return_type) ;;
    parsed <- infer element format ;;
    parsed_dtype <- Parse.parse_dtype parsed ;;
    apply_cell conversion_map parsed_dtype parsed.

Definition _string_to_timedelta_map (element : pyval) (force : bool)
           (return_type : pytype) : list (kind * outcome callable) :=
  [ (KInt, partial globals "_integer_to_timedelta" [return_type_ return_type]);
    (KFloat, partial globals "_float_to_timedelta" [return_type_ return_type]);
    (KComplex, partial globals "_complex_to_timedelta"
       [force_ force; return_type_ return_type]);
    (KBool, partial globals "_boolean_to_timedelta" [return_type_ return_type]);
    (KDatetime, partial globals "_datetime_to_timedelta" [return_type_ return_type]);
    (KTimedelta, lambda (fun x => s <- py_total_seconds element ;;
                                  of_seconds return_type s)) ].

Definition _string_to_timedelta (element : pyval) (force : bool)
           (format : option string) (return_type : pytype) : outcome pyval :=
  if isnull element then Return PdNaT
  else
    conversion_map <- dict (_string_to_timedelta_map element force return_type) ;;
    parsed <- infer element format ;;
    parsed_dtype <- Parse.parse_dtype parsed ;;
    apply_cell conversion_map parsed_dtype parsed.

End StringRules.

Definition string_rule_namespace : namespace :=
  [ ("_string_to_integer", def [kw_round; kw_force; kw_ftol; kw_format; kw_return_type]
       (fun kw x => _string_to_integer rule_namespace x (round_of kw) (force_of kw)
                      (ftol_of kw) (format_of kw) (rt kw TInt)));
    ("_string_to_float", def [kw_force; kw_ftol; kw_format; kw_return_type]
       (fun kw x => _string_to_float rule_namespace x (force_of kw) (ftol_of kw)
                      (format_of kw) (rt kw TFloat)));
    ("_string_to_complex", def [kw_format; kw_return_type]
       (fun kw x => _string_to_complex rule_namespace x (format_of kw) (rt kw TFloat)));
    ("_string_to_boolean", def [kw_force; kw_ftol; kw_format; kw_return_type]
       (fun kw x => _string_to_boolean rule_namespace x (force_of kw) (ftol_of kw)
                      (format_of kw) (rt kw TBool)));
    ("_string_to_datetime", def [kw_force; kw_ftol; kw_format; kw_return_type]
       (fun kw x => _string_to_datetime rule_namespace x (force_of kw) (ftol_of kw)
                      (format_of kw) (rt kw TTimestamp)));
    ("_string_to_timedelta", def [kw_force; kw_format; kw_return_type]
       (fun kw x => _string_to_timedelta rule_namespace x (force_of kw)
                      (format_of kw) (rt kw TPdTimedelta))) ]%string.

(** Every rule the module defines.  The rules from strings look their names
    up among the other rules: none of the names they use is the name of a
    rule from strings, so the lookup is the one in the whole module (see
    [resolve_rule_namespace]). *)
Definition module_namespace : namespace := rule_namespace ++ string_rule_namespace.

(** *** The entry points

    The [@cache] decorator memoises a pure function of hashable arguments
    and is not modelled.  Each entry point returns the missing value of its
    target on a null element, and otherwise builds its conversion map,
    classifies [type(element)] and applies the cell under
    [try ... except (KeyError, ValueError)]. *)

Definition to_integer_map (element : pyval) (round force : bool) (ftol : pyfloat)
           (format : option string) (return_type : pytype)
  : list (kind * outcome callable) :=
  [ (KInt, lambda (fun x => call_type return_type element));
    (KFloat, partial module_namespace "_float_to_integer"
       [round_ round; force_ force; ftol_ ftol; return_type_ return_type]);
    (KComplex, partial module_namespace "_complex_to_integer"
       [round_ round; force_ force; ftol_ ftol; return_type_ return_type]);
    (KStr, partial module_namespace "_string_to_integer"
       [round_ round; force_ force; ftol_ ftol; format_ format;
        return_type_ return_type]);
    (KBool, partial module_namespace "_boolean_to_integer" [return_type_ return_type]);
    (KDatetime, partial module_namespace "_datetime_to_integer"
       [round_ round; force_ force; ftol_ ftol; return_type_ return_type]);
    (KTimedelta, partial module_namespace "_timedelta_to_integer"
       [round_ round; force_ force; ftol_ ftol; return_type_ return_type]);
    (KObject, lambda (fun x => i <- call_type TInt x ;; call_type return_type i)) ].

Definition to_integer (element : pyval) (round force : bool) (ftol : pyfloat)
           (format : option string) (return_type : pytype) : outcome pyval :=
  if isnull element then Return np_nan
  else
    conversion_map <- dict (to_integer_map element round force ftol format return_type) ;;
    from_type <- Parse.parse_dtype (PyType (type_of element)) ;;
    apply_cell conversion_map from_type element.

Definition to_float_map (force : bool) (ftol : pyfloat)
           (format : option string) (return_type : pytype)
  : list (kind * outcome callable) :=
  [ (KInt, partial module_namespace "_integer_to_float" [return_type_ return_type]);
    (KFloat, lambda (fun x => call_type return_type x));
    (KComplex, partial module_namespace "_complex_to_float"
       [force_ force; ftol_ ftol; return_type_ return_type]);
    (KStr, partial module_namespace "_string_to_float"
       [force_ force; ftol_ ftol; format_ format; return_type_ return_type]);
    (KBool, partial module_namespace "_boolean_to_float" [return_type_ return_type]);
    (KDatetime, partial module_namespace "_datetime_to_float" [return_type_ return_type]);
    (KTimedelta, partial module_namespace "_timedelta_to_float" [return_type_ return_type]);
    (KObject, lambda (fun x => f <- call_type TFloat x ;; call_type return_type f)) ].

Definition to_float (element : pyval) (force : bool) (ftol : pyfloat)
           (format : option string) (return_type : pytype) : outcome pyval :=
  if isnull element then Return np_nan
  else
    conversion_map <- dict (to_float_map force ftol format return_type) ;;
    from_type <- Parse.parse_dtype (PyType (type_of element)) ;;
    apply_cell conversion_map from_type element.

Definition to_complex_map (format : option string) (return_type : pytype)
  : list (kind * outcome callable) :=
  [ (KInt, partial module_namespace "_integer_to_complex" [return_type_ return_type]);
    (KFloat, partial module_namespace "_float_to_complex" [return_type_ return_type]);
    (KComplex, lambda (fun x => call_type return_type x));
    (KStr, partial module_namespace "_string_to_complex"
       [format_ format; return_type_ return_type]);
    (KBool, partial module_namespace "_boolean_to_complex" [return_type_ return_type]);
    (KDatetime, partial module_namespace "_datetime_to_complex" [return_type_ return_type]);
    (KTimedelta, partial module_namespace "_timedelta_to_complex"
       [return_type_ return_type]);
    (KObject, lambda (fun x => c <- call_type TComplex x ;; call_type return_type c)) ].

Definition to_complex (element : pyval) (format : option string)
           (return_type : pytype) : outcome pyval :=
  if isnull element then Return np_nan
  else
    conversion_map <- dict (to_complex_map format return_type) ;;
    from_type <- Parse.parse_dtype (PyType (type_of element)) ;;
    apply_cell conversion_map from_type element.

Definition to_boolean_map (force : bool) (ftol : pyfloat)
           (format : option string) (return_type : pytype)
  : list (kind * outcome callable) :=
  [ (KInt, partial module_namespace "_integer_to_boolean"
       [force_ force; ftol_ ftol; return_type_ return_type]);
    (KFloat, partial module_namespace "_float_to_boolean"
       [force_ force; ftol_ ftol; return_type_ return_type]);
    (KComplex, partial module_namespace "_complex_to_boolean"
       [force_ force; ftol_ ftol; return_type_ return_type]);
    (KStr, partial module_namespace "_string_to_boolean"
       [force_ force; ftol_ ftol; format_ format; return_type_ return_type]);
    (KBool, lambda (fun x => call_type return_type x));
    (KDatetime, partial module_namespace "_datetime_to_boolean"
       [force_ force; ftol_ ftol; return_type_ return_type]);
    (KTimedelta, partial module_namespace "_timedelta_to_boolean"
       [force_ force; ftol_ ftol; return_type_ return_type]);
    (KObject, lambda (fun x => b <- call_type TBool x ;; call_type return_type b)) ].

Definition to_boolean (element : pyval) (force : bool) (ftol : pyfloat)
           (format : option string) (return_type : pytype) : outcome pyval :=
  if isnull element then Return PdNA
  else
    conversion_map <- dict (to_boolean_map force ftol format return_type) ;;
    from_type <- Parse.parse_dtype (PyType (type_of element)) ;;
    apply_cell conversion_map from_type element.

Definition to_string_map (format : option string) (return_type : pytype)
  : list (kind * outcome callable) :=
  [ (KInt, partial module_namespace "_integer_to_string" [return_type_ return_type]);
    (KFloat, partial module_namespace "_float_to_string" [return_type_ return_type]);
    (KComplex, partial module_namespace "_complex_to_string" [return_type_ return_type]);
    (KStr, lambda (fun x => call_type return_type x));
    (KBool, partial module_namespace "_boolean_to_string" [return_type_ return_type]);
    (KDatetime, partial module_namespace "_datetime_to_string"
       [format_ format; return_type_ return_type]);
    (KTimedelta, partial module_namespace "_timedelta_to_string"
       [return_type_ return_type]);
    (KObject, lambda (fun x => s <- call_type TStr x ;; call_type return_type s)) ].

Definition to_string (element : pyval) (format : option string)
           (return_type : pytype) : outcome pyval :=
  if isnull element then Return PdNA
  else
    conversion_map <- dict (to_string_map format return_type) ;;
    from_type <- Parse.parse_dtype (PyType (type_of element)) ;;
    apply_cell conversion_map from_type element.

Definition to_datetime_map (force : bool) (ftol : pyfloat)
           (format : option string) (return_type : pytype)
  : list (kind * outcome callable) :=
  [ (KInt, partial module_namespace "_integer_to_datetime" [return_type_ return_type]);
    (KFloat, partial module_namespace "_float_to_datetime" [return_type_ return_type]);
    (KComplex, partial module_namespace "_complex_to_datetime"
       [force_ force; ftol_ ftol; return_type_ return_type]);
    (KStr, partial module_namespace "_string_to_datetime"
       [force_ force; ftol_ ftol; format_ format; return_type_ return_type]);
    (KBool, partial module_namespace "_boolean_to_datetime" [return_type_ return_type]);
    (KDatetime, lambda (fun x => fromtimestamp_utc return_type (utc_timestamp x)));
    (KTimedelta, partial module_namespace "_timedelta_to_datetime"
       [return_type_ return_type]) ].

(** [func] is accepted and never used. *)
Definition to_datetime (element : pyval) (force : bool) (ftol : pyfloat)
           (format : option string) (func : option callable)
           (return_type : pytype) : outcome pyval :=
  if isnull element then Return PdNaT
  else
    conversion_map <- dict (to_datetime_map force ftol format return_type) ;;
    from_type <- Parse.parse_dtype (PyType (type_of element)) ;;
    apply_cell conversion_map from_type element.

Definition to_timedelta_map (force : bool) (ftol : pyfloat) (return_type : pytype)
  : list (kind * outcome callable) :=
  [ (KInt, partial module_namespace "_integer_to_timedelta" [return_type_ return_type]);
    (KFloat, partial module_namespace "_float_to_timedelta" [return_type_ return_type]);
    (KComplex, partial module_namespace "_complex_to_timedelta"
       [force_ force; ftol_ ftol; return_type_ return_type]);
    (KStr, partial module_namespace "_string_to_timedelta"
       [force_ force; ftol_ ftol; return_type_ return_type]);
    (KBool, partial module_namespace "_boolean_to_timedelta" [return_type_ return_type]);
    (KDatetime, partial module_namespace "_datetime_to_timedelta"
       [return_type_ return_type]);
    (KTimedelta, lambda (fun x => s <- py_total_seconds x ;; of_seconds return_type s)) ].

Definition to_timedelta (element : pyval) (force : bool) (ftol : pyfloat)
           (return_type : pytype) : outcome pyval :=
  if isnull element then Return PdNaT
  else
    conversion_map <- dict (to_timedelta_map force ftol return_type) ;;
    from_type <- Parse.parse_dtype (PyType (type_of element)) ;;
    apply_cell conversion_map from_type element.

End WithExternals.
End Apply.

(** ** A small instance of the imports

    Used to run the kernel on closed inputs.  It reads decimal integer and
    fixed-point literals and durations written [D day(s), H:MM:SS], declines
    every other literal, and recognises the builtin classes [int], [float],
    [complex], [bool], [object] and [str] as dtypes of their kind. *)

Module Sample.

Definition digit_of (c : ascii) : option Z :=
  let n := nat_of_ascii c in
  if ((48 <=? n) && (n <=? 57))%nat then Some (Z.of_nat (n - 48)) else None.

Fixpoint digits (s : string) (acc : Z) : option Z :=
  match s with
  | EmptyString => Some acc
  | String c r =>
      match digit_of c with
      | Some d => digits r (acc * 10 + d)
      | None => None
      end
  end.

Definition natural (s : string) : option Z :=
  match s with
  | EmptyString => None
  | _ => digits s 0
  end.

(** The sign of a literal and what follows it. *)
Definition signed (s : string) : bool * string :=
  match s with
  | String "-" r => (true, r)
  | String "+" r => (false, r)
  | _ => (false, s)
  end.

Fixpoint split_at (c : ascii) (s : string) : option (string * string) :=
  match s with
  | EmptyString => None
  | String a r =>
      if Ascii.eqb a c then Some (EmptyString, r)
      else match split_at c r with
           | Some (l, t) => Some (String a l, t)
           | None => None
           end
  end.

Definition int_literal (s : string) : outcome Z :=
  let (neg, body) := signed (Parse.strip s) in
  match natural body with
  | Some n => Return (if neg then - n else n)
  | None => Raise ValueError
  end.

Definition float_literal (s : string) : outcome pyfloat :=
  let (neg, body) := signed (Parse.strip s) in
  let magnitude :=
    match split_at "." body with
    | Some (whole, part) =>
        match natural whole, natural part with
        | Some w, Some p =>
            Some (inject_Z w + (p # Pos.of_nat (Nat.pow 10 (String.length part))))%Q
        | _, _ => None
        end
    | None => option_map inject_Z (natural body)
    end in
  match magnitude with
  | Some m => Return (Fin (Qred (if neg then - m else m)%Q))
  | None => Raise ValueError
  end.

Definition duration_literal (s : string) : outcome pyval :=
  match split_at "," s with
  | Some (days, clock) =>
      match split_at " " days, split_at ":" (Parse.strip clock) with
      | Some (d, unit), Some (h, ms) =>
          match split_at ":" ms with
          | Some (m, sec) =>
              match natural d, natural h, natural m, natural sec with
              | Some d, Some h, Some m, Some sec =>
                  if Parse.str_in unit ["day"; "days"]%string
                  then Return (PyTimedelta
                         {| td_pandas := true;
                            td_us := (((d * 24 + h) * 60 + m) * 60 + sec) * 1000000 |})
                  else Raise ValueError
              | _, _, _, _ => Raise ValueError
              end
          | None => Raise ValueError
          end
      | _, _ => Raise ValueError
      end
  | None => Raise ValueError
  end.

Definition is_class (l : list pytype) (dtype : pyval) : bool :=
  match dtype with
  | PyType t => existsb (pytype_eqb t) l
  | _ => false
  end.

Definition externals : Externals :=
  {| int_of_str := int_literal;
     float_of_str := float_literal;
     complex_of_str := fun _ => Raise ValueError;
     pd_to_timedelta := duration_literal;
     pd_to_datetime := fun _ => Raise ValueError;
     py_str := fun x => match x with PyStr s => s | _ => "<object>"%string end;
     to_utc := fun x =>
       match x with
       | PyDatetime d =>
           Return (PyDatetime {| dt_pandas := dt_pandas d;
                                 dt_epoch_us := dt_epoch_us d;
                                 dt_utcoffset := Some 0 |})
       | _ => Raise AttributeError
       end;
     dt_isoformat := fun _ => EmptyString;
     dt_strftime := fun _ _ => EmptyString;
     construct_ext := fun _ _ => Raise TypeError;
     eq_ext := fun _ _ => Return false;
     is_integer_dtype := is_class [TInt];
     is_float_dtype := is_class [TFloat];
     is_complex_dtype := is_class [TComplex];
     is_bool_dtype := is_class [TBool];
     is_datetime64_any_dtype := fun _ => false;
     is_timedelta64_dtype := fun _ => false;
     is_object_dtype := is_class [TObject];
     is_string_dtype := is_class [TStr] |}.

End Sample.

(** ** Vocabulary of the properties *)

(** The distance from an integer to a real. *)
Definition dist (z : Z) (q : Q) : Q := Qabs (inject_Z z - q).

(** The fractional part of a real, in [[0, 1)]. *)
Definition frac (q : Q) : Q := (q - inject_Z (Qfloor q))%Q.


Section Inference.
Context {E : Externals}.




End Inference.



(** The narrowing rules, run with the default representation of their
    target. *)
Inductive narrowing : Type :=
| FloatToInteger | FloatToBoolean
| ComplexToInteger | ComplexToFloat | ComplexToBoolean
| ComplexToDatetime | ComplexToTimedelta
| DatetimeToInteger | DatetimeToBoolean
| TimedeltaToInteger | TimedeltaToBoolean.

Section Narrowing.
Context {E : Externals}.

Definition run_narrowing (r : narrowing) (element : pyval) (round force : bool)
           (ftol : pyfloat) : outcome pyval :=
  match r with
  | FloatToInteger => Apply.float_to_integer element force round ftol TInt
  | FloatToBoolean => Apply._float_to_boolean element force ftol TBool
  | ComplexToInteger => Apply._complex_to_integer element round force ftol TInt
  | ComplexToFloat => Apply._complex_to_float element force ftol TFloat
  | ComplexToBoolean => Apply._complex_to_boolean element force ftol TBool
  | ComplexToDatetime => Apply._complex_to_datetime element force ftol TTimestamp
  | ComplexToTimedelta => Apply._complex_to_timedelta element force ftol TPdTimedelta
  | DatetimeToInteger => Apply._datetime_to_integer element round force ftol TInt
  | DatetimeToBoolean => Apply._datetime_to_boolean element force ftol TBool
  | TimedeltaToInteger => Apply._timedelta_to_integer element round force ftol TInt
  | TimedeltaToBoolean => Apply._timedelta_to_boolean element force ftol TBool
  end.

(** The real number a rule narrows: the float itself, the real part of a
    complex number, the UTC timestamp of a datetime, the total seconds of a
    timedelta. *)
Definition bridge (r : narrowing) (element : pyval) : outcome pyfloat :=
  match r, element with
  | (FloatToInteger | FloatToBoolean), PyFloat f => Return f
  | (ComplexToInteger | ComplexToFloat | ComplexToBoolean
     | ComplexToDatetime | ComplexToTimedelta), PyComplex re _ => Return re
  | (DatetimeToInteger | DatetimeToBoolean), PyDatetime _ =>
      u <- to_utc element ;;
      match u with
      | PyDatetime d => Return (Fin (dt_epoch_us d # 1000000))
      | _ => Raise AttributeError
      end
  | (TimedeltaToInteger | TimedeltaToBoolean), PyTimedelta t =>
      Return (Fin (td_us t # 1000000))
  | _, _ => Raise TypeError
  end.

End Narrowing.

(** What a forced narrowing of the real [b] is expected to return: the
    nearest or the truncated integer, following [round]; the truth value;
    the real itself; the instant or the span of [b] seconds. *)
Definition forced_candidate (r : narrowing) (round : bool) (b : pyfloat)
  : option pyval :=
  match r, b with
  | (FloatToInteger | ComplexToInteger | DatetimeToInteger | TimedeltaToInteger), Fin q =>
      Some (PyInt (if round then round_half_even q else truncate q))
  | (FloatToBoolean | ComplexToBoolean | DatetimeToBoolean | TimedeltaToBoolean), _ =>
      Some (PyBool (f_nonzero b))
  | ComplexToFloat, _ => Some (PyFloat b)
  | ComplexToDatetime, Fin q =>
      Some (PyDatetime {| dt_pandas := true;
                          dt_epoch_us := round_half_even (q * inject_Z 1000000);
                          dt_utcoffset := Some 0 |})
  | ComplexToTimedelta, Fin q =>
      Some (PyTimedelta {| td_pandas := true;
                           td_us := round_half_even (q * inject_Z 1000000) |})
  | _, _ => None
  end.



(** The same imports with a [pd.to_timedelta] that overflows, as it does on
    a span beyond its range. *)
Definition overflowing_externals : Externals :=
  {| int_of_str := Sample.int_literal;
     float_of_str := Sample.float_literal;
     complex_of_str := fun _ => Raise ValueError;
     pd_to_timedelta := fun _ => Raise OverflowError;
     pd_to_datetime := fun _ => Raise ValueError;
     py_str := py_str (Externals := Sample.externals);
     to_utc := to_utc (Externals := Sample.externals);
     dt_isoformat := fun _ => EmptyString;
     dt_strftime := fun _ _ => EmptyString;
     construct_ext := fun _ _ => Raise TypeError;
     eq_ext := fun _ _ => Return false;
     is_integer_dtype := Sample.is_class [TInt];
     is_float_dtype := Sample.is_class [TFloat];
     is_complex_dtype := Sample.is_class [TComplex];
     is_bool_dtype := Sample.is_class [TBool];
     is_datetime64_any_dtype := fun _ => false;
     is_timedelta64_dtype := fun _ => false;
     is_object_dtype := Sample.is_class [TObject];
     is_string_dtype := Sample.is_class [TStr] |}.

(** The missing value a rule is written to return on a null element, read
    off its name: [np.nan] for the numeric targets, [pd.NA] for booleans,
    [pd.NaT] for the temporal targets, and for strings [pd.NA] except in
    [integer_to_string] and [float_to_string], which return [None]. *)
Definition ends_with (suffix s : string) : bool :=
  let n := String.length s in
  let k := String.length suffix in
  (k <=? n)%nat && String.eqb (substring (n - k) k s) suffix.

Definition missing_of (name : string) : pyval :=
  if ends_with "_to_integer" name || ends_with "_to_float" name
     || ends_with "_to_complex" name then np_nan
  else if ends_with "_to_boolean" name then PdNA
  else if ends_with "_to_datetime" name || ends_with "_to_timedelta" name then PdNaT
  else if String.eqb name "integer_to_string" || String.eqb name "float_to_string"
       then PyNone
  else PdNA.

(** The number a numeric result stands for in a comparison. *)
Definition real_of (v : pyval) : option pyfloat :=
  match v with
  | PyInt z => Some (f_of_Z z)
  | PyBool c => Some (f_of_Z (Z.b2z c))
  | _ => None
  end.

(** * Properties *)

(** ** Arithmetic of the float model *)

Lemma Qltb_lt (x y : Q) : Qltb x y = true <-> (x < y)%Q.
Proof. unfold Qltb, Qlt. apply Z.ltb_lt. Qed.

Lemma Qltb_ge (x y : Q) : Qltb x y = false <-> (y <= x)%Q.
Proof. unfold Qltb, Qle. apply Z.ltb_ge. Qed.


Lemma inject_Z_succ (z : Z) : (inject_Z (z + 1) == inject_Z z + 1)%Q.
Proof. rewrite inject_Z_plus. reflexivity. Qed.

Lemma floor_bounds (q : Q) :
  (inject_Z (Qfloor q) <= q /\ q < inject_Z (Qfloor q) + 1)%Q.
Proof.
  split.
  - apply Qfloor_le.
  - rewrite <- inject_Z_succ. apply Qlt_floor.
Qed.

(** An integer is at or below the floor, or at or above the floor plus one. *)
Lemma integer_around_floor (q : Q) (z : Z) :
  (inject_Z z <= inject_Z (Qfloor q) \/ inject_Z (Qfloor q) + 1 <= inject_Z z)%Q.
Proof.
  destruct (Z_le_gt_dec z (Qfloor q)) as [H | H].
  - left. rewrite <- Zle_Qle. exact H.
  - right. rewrite <- inject_Z_succ, <- Zle_Qle. lia.
Qed.

Lemma round_half_even_cases (q : Q) :
  (round_half_even q = Qfloor q /\ (q - inject_Z (Qfloor q) <= 1 # 2)%Q)
  \/ (round_half_even q = Qfloor q + 1 /\ (1 # 2 <= q - inject_Z (Qfloor q))%Q).
Proof.
  unfold round_half_even.
  destruct (q - inject_Z (Qfloor q) ?= 1 # 2)%Q eqn:C.
  - apply Qeq_alt in C. destruct (Z.even (Qfloor q)).
    + left. split; [reflexivity | rewrite C; apply Qle_refl].
    + right. split; [reflexivity | rewrite C; apply Qle_refl].
  - apply Qlt_alt in C. left. split; [reflexivity | apply Qlt_le_weak, C].
  - apply Qgt_alt in C. right. split; [reflexivity | apply Qlt_le_weak, C].
Qed.

(** [np.round] returns a nearest integer. *)
Lemma round_half_even_nearest (q : Q) (z : Z) :
  (dist (round_half_even q) q <= dist z q)%Q.
Proof.
  unfold dist.
  destruct (floor_bounds q) as [Hlo Hhi].
  destruct (integer_around_floor q z) as [Hz | Hz];
  destruct (round_half_even_cases q) as [[-> Hc] | [-> Hc]];
    try rewrite inject_Z_succ;
    apply Qabs_case; intros; apply Qabs_case; intros; lra.
Qed.

Lemma round_half_even_half (q : Q) : (dist (round_half_even q) q <= 1 # 2)%Q.
Proof.
  unfold dist.
  destruct (floor_bounds q) as [Hlo Hhi].
  destruct (round_half_even_cases q) as [[-> Hc] | [-> Hc]];
    try rewrite inject_Z_succ; apply Qabs_case; intros; lra.
Qed.

Lemma truncate_inject_Z (z : Z) : truncate (inject_Z z) = z.
Proof. unfold truncate. simpl. apply Z.quot_1_r. Qed.

Lemma round_half_even_inject_Z (z : Z) : round_half_even (inject_Z z) = z.
Proof.
  unfold round_half_even. rewrite Qfloor_Z.
  replace (inject_Z z - inject_Z z ?= 1 # 2)%Q with Lt; [reflexivity |].
  symmetry. apply (proj1 (Qlt_alt _ _)). lra.
Qed.


(** ** Name resolution in [apply.py] *)

Section EntryPoints.
Context {E : Externals}.

Lemma find_app_none {A : Type} (f : A -> bool) (l l' : list A) :
  find f l' = None -> find f (l ++ l') = find f l.
Proof.
  intros H. induction l as [| a l IH]; simpl.
  - exact H.
  - destruct (f a); [reflexivity | exact IH].
Qed.

(** A name that is not the name of a rule from strings is bound in the
    module exactly as it is among the other rules. *)
Lemma resolve_rule_namespace (name : string) :
  existsb (String.eqb name) (map fst Apply.string_rule_namespace) = false ->
  Apply.resolve Apply.module_namespace name = Apply.resolve Apply.rule_namespace name.
Proof.
  intros H. unfold Apply.resolve, Apply.module_namespace.
  rewrite find_app_none; [reflexivity |].
  unfold Apply.string_rule_namespace in *. cbn [map fst existsb] in H.
  repeat (apply orb_false_elim in H; destruct H as [? H]).
  cbn [find fst].
  repeat match goal with
         | Hn : String.eqb name ?s = false |- context [String.eqb ?s name] =>
             rewrite (String.eqb_sym s name), Hn
         end.
  reflexivity.
Qed.

(** The module defines [integer_to_float], ..., [float_to_string] without
    the leading underscore the conversion maps call them with. *)
Lemma unbound_names :
  Forall (fun name => Apply.resolve Apply.module_namespace name = Raise NameError)
         [ "_integer_to_float"; "_integer_to_complex"; "_integer_to_string";
           "_integer_to_boolean"; "_integer_to_datetime"; "_integer_to_timedelta";
           "_float_to_integer"; "_float_to_complex"; "_float_to_string" ]%string.
Proof. repeat constructor. Qed.

Lemma to_integer_unbound element round force ftol format return_type :
  isnull element = false ->
  Apply.to_integer element round force ftol format return_type = Raise NameError.
Proof. intros H. unfold Apply.to_integer. rewrite H. reflexivity. Qed.

Lemma to_float_unbound element force ftol format return_type :
  isnull element = false ->
  Apply.to_float element force ftol format return_type = Raise NameError.
Proof. intros H. unfold Apply.to_float. rewrite H. reflexivity. Qed.

Lemma to_complex_unbound element format return_type :
  isnull element = false ->
  Apply.to_complex element format return_type = Raise NameError.
Proof. intros H. unfold Apply.to_complex. rewrite H. reflexivity. Qed.

Lemma to_boolean_unbound element force ftol format return_type :
  isnull element = false ->
  Apply.to_boolean element force ftol format return_type = Raise NameError.
Proof. intros H. unfold Apply.to_boolean. rewrite H. reflexivity. Qed.

Lemma to_string_unbound element format return_type :
  isnull element = false ->
  Apply.to_string element format return_type = Raise NameError.
Proof. intros H. unfold Apply.to_string. rewrite H. reflexivity. Qed.

Lemma to_datetime_unbound element force ftol format func return_type :
  isnull element = false ->
  Apply.to_datetime element force ftol format func return_type = Raise NameError.
Proof. intros H. unfold Apply.to_datetime. rewrite H. reflexivity. Qed.

Lemma to_timedelta_unbound element force ftol return_type :
  isnull element = false ->
  Apply.to_timedelta element force ftol return_type = Raise NameError.
Proof. intros H. unfold Apply.to_timedelta. rewrite H. reflexivity. Qed.

(** The rules from strings stop at the same place. *)
Lemma string_rules_unbound globals element round force ftol format return_type :
  (forall name, Apply.resolve globals name = Apply.resolve Apply.module_namespace name) ->
  isnull element = false ->
  Apply._string_to_integer globals element round force ftol format return_type
  = Raise NameError
  /\ Apply._string_to_float globals element force ftol format return_type
     = Raise NameError
  /\ Apply._string_to_complex globals element format return_type = Raise NameError
  /\ Apply._string_to_boolean globals element force ftol format return_type
     = Raise NameError
  /\ Apply._string_to_datetime globals element force ftol format return_type
     = Raise NameError
  /\ Apply._string_to_timedelta globals element force format return_type
     = Raise NameError.
Proof.
  intros G H.
  unfold Apply._string_to_integer, Apply._string_to_float, Apply._string_to_complex,
    Apply._string_to_boolean, Apply._string_to_datetime, Apply._string_to_timedelta.
  rewrite H.
  unfold Apply._string_to_integer_map, Apply._string_to_float_map,
    Apply._string_to_complex_map, Apply._string_to_boolean_map,
    Apply._string_to_datetime_map, Apply._string_to_timedelta_map,
    Apply.partial_boolean_to_datetime, Apply.partial.
  cbn [Apply.dict]. rewrite !G. repeat split; reflexivity.
Qed.

(** C1.  On a null element every entry point returns the missing value of
    its target kind ([np.nan] for integer, float and complex, [pd.NA] for
    boolean and string, [pd.NaT] for datetime and timedelta), whatever the
    options, and raises nothing. *)
Theorem null_propagation (element : pyval) :
  isnull element = true ->
  (forall round force ftol format return_type,
      Apply.to_integer element round force ftol format return_type = Return np_nan)
  /\ (forall force ftol format return_type,
      Apply.to_float element force ftol format return_type = Return np_nan)
  /\ (forall format return_type,
      Apply.to_complex element format return_type = Return np_nan)
  /\ (forall force ftol format return_type,
      Apply.to_boolean element force ftol format return_type = Return PdNA)
  /\ (forall format return_type,
      Apply.to_string element format return_type = Return PdNA)
  /\ (forall force ftol format func return_type,
      Apply.to_datetime element force ftol format func return_type = Return PdNaT)
  /\ (forall force ftol return_type,
      Apply.to_timedelta element force ftol return_type = Return PdNaT).
Proof.
  intros H.
  unfold Apply.to_integer, Apply.to_float, Apply.to_complex, Apply.to_boolean,
    Apply.to_string, Apply.to_datetime, Apply.to_timedelta.
  rewrite H. repeat split; reflexivity.
Qed.

End EntryPoints.

Lemma null_propagation_witness :
  isnull PyNone = true
  /\ Apply.to_integer (E := Sample.externals) PyNone false false default_ftol None TInt
     = Return np_nan
  /\ Apply.to_float (E := Sample.externals) PyNone false default_ftol None TFloat
     = Return np_nan
  /\ Apply.to_complex (E := Sample.externals) PyNone None TComplex = Return np_nan
  /\ Apply.to_boolean (E := Sample.externals) PyNone true default_ftol None TBool
     = Return PdNA
  /\ Apply.to_string (E := Sample.externals) PyNone None TStr = Return PdNA
  /\ Apply.to_datetime (E := Sample.externals) PyNone false default_ftol None None
       TTimestamp = Return PdNaT
  /\ Apply.to_timedelta (E := Sample.externals) PyNone false default_ftol TPdTimedelta
     = Return PdNaT.
Proof.
  split; [reflexivity |].
  destruct (null_propagation (E := Sample.externals) PyNone eq_refl)
    as (H1 & H2 & H3 & H4 & H5 & H6 & H7).
  exact (conj (H1 _ _ _ _ _) (conj (H2 _ _ _ _) (conj (H3 _ _) (conj (H4 _ _ _ _)
          (conj (H5 _ _) (conj (H6 _ _ _ _ _) (H7 _ _ _))))))).
Defined.

(** ** The rules on their own *)

Section Rules.
Context {E : Externals}.

(** C9.  [integer_to_boolean] without [force] returns [bool(n)] exactly when
    [n] is 0 or 1 and raises [ValueError] for every other integer; with
    [force] it returns [bool(n)] for every integer.  The test is the equality
    of the boolean with the integer, and the rule declares no [ftol]: calling
    it with one is a [TypeError]. *)
Theorem integer_to_boolean_exact (n : Z) :
  Apply.integer_to_boolean (PyInt n) false TBool
  = (if (n =? 0) || (n =? 1) then Return (PyBool (negb (n =? 0)))
     else Raise ValueError)
  /\ Apply.integer_to_boolean (PyInt n) true TBool = Return (PyBool (negb (n =? 0)))
  /\ (forall force,
        Apply.integer_to_boolean (PyInt n) force TBool
        = (if (Z.b2z (negb (n =? 0)) =? n) || force
           then Return (PyBool (negb (n =? 0))) else Raise ValueError))
  /\ (exists f,
        Apply.resolve Apply.module_namespace "integer_to_boolean" = Return f
        /\ existsb (kwname_eqb kw_ftol) (fn_keywords f) = false
        /\ forall force ftol,
            call f (Apply.keywords [Apply.force_ force; Apply.ftol_ ftol]) (PyInt n)
            = Raise TypeError).
Proof.
  assert (G : forall force,
             Apply.integer_to_boolean (PyInt n) force TBool
             = (if (Z.b2z (negb (n =? 0)) =? n) || force
                then Return (PyBool (negb (n =? 0))) else Raise ValueError))
    by reflexivity.
  split; [| split; [| split]].
  - rewrite G. rewrite orb_false_r.
    destruct (Z.eqb_spec n 0) as [H0 | H0]; [rewrite H0; reflexivity |].
    destruct (Z.eqb_spec n 1) as [H1 | H1]; [rewrite H1; reflexivity |].
    cbn [negb Z.b2z orb]. destruct (Z.eqb_spec 1 n); [congruence | reflexivity].
  - rewrite G. rewrite orb_true_r. reflexivity.
  - exact G.
  - eexists. split; [reflexivity |]. split; [reflexivity |].
    intros force ftol. reflexivity.
Qed.

End Rules.

Lemma truncate_towards_zero (q : Q) :
  (Qabs (inject_Z (truncate q)) <= Qabs q /\ dist (truncate q) q < 1)%Q.
Proof.
  destruct q as [n d]. unfold truncate, dist. cbn [Qnum Qden].
  pose proof (Z.quot_rem' n (Z.pos d)) as Hq.
  assert (Hr : (0 <= n -> 0 <= Z.rem n (Z.pos d) < Z.pos d)
               /\ (n <= 0 -> - Z.pos d < Z.rem n (Z.pos d) <= 0)).
  { pose proof (Z.rem_bound_abs n (Z.pos d) ltac:(lia)) as Hb.
    split; intros Hn.
    - pose proof (Z.rem_nonneg n (Z.pos d) ltac:(lia) Hn). lia.
    - pose proof (Z.rem_nonpos n (Z.pos d) ltac:(lia) Hn). lia. }
  destruct Hr as [Hpos Hneg].
  set (t := Z.quot n (Z.pos d)) in *. set (r := Z.rem n (Z.pos d)) in *.
  assert (Hsign : (0 <= n /\ 0 <= t /\ 0 <= r < Z.pos d)
                  \/ (n <= 0 /\ t <= 0 /\ - Z.pos d < r <= 0)).
  { destruct (Z_le_gt_dec 0 n) as [Hn | Hn].
    - left. specialize (Hpos Hn). repeat split; try lia. nia.
    - right. assert (Hn' : n <= 0) by lia. specialize (Hneg Hn').
      repeat split; try lia. nia. }
  split.
  - unfold Qle. cbn [Qabs inject_Z Qnum Qden]. nia.
  - apply Qabs_Qlt_condition.
    split; unfold Qlt, Qminus, Qplus, Qopp; cbn [inject_Z Qnum Qden]; nia.
Qed.

Lemma dist_floor (q : Q) : (dist (Qfloor q) q == frac q)%Q.
Proof.
  unfold dist, frac. destruct (floor_bounds q) as [Hlo _].
  rewrite Qabs_neg by lra. ring.
Qed.

(** A real whose fractional part is half the tolerance is within the
    tolerance of its nearest integer. *)
Lemma half_tolerance_within (q t : Q) :
  (0 < t)%Q -> (frac q == (1 # 2) * t)%Q ->
  f_ltb (Fin (dist (round_half_even q) q)) (Fin t) = true.
Proof.
  intros Ht Hf. cbn [f_ltb]. apply Qltb_lt.
  apply Qle_lt_trans with (dist (Qfloor q) q).
  - apply round_half_even_nearest.
  - rewrite dist_floor, Hf. lra.
Qed.

(** A real whose fractional part is twice a tolerance of at most a third is
    outside the tolerance of every integer. *)
Lemma double_tolerance_outside (q t : Q) (z : Z) :
  (0 < t)%Q -> (t <= 1 # 3)%Q -> (frac q == 2 * t)%Q ->
  f_ltb (Fin (dist z q)) (Fin t) = false.
Proof.
  intros Ht Ht3 Hf. cbn [f_ltb]. apply Qltb_ge.
  unfold frac in Hf. unfold dist.
  destruct (integer_around_floor q z) as [Hz | Hz];
    apply Qabs_case; intros; lra.
Qed.

Section FloatToInteger.
Context {E : Externals}.

Lemma float_to_integer_fin (q : Q) (force round : bool) (ftol : pyfloat) :
  Apply.float_to_integer (PyFloat (Fin q)) force round ftol TInt
  = (let nearest := round_half_even q in
     let candidate :=
       if round || f_ltb (Fin (dist nearest q)) ftol then nearest else truncate q in
     if force || f_ltb (Fin (dist candidate q)) ftol
     then Return (PyInt candidate) else Raise ValueError).
Proof.
  cbv [Apply.float_to_integer isnull f_is_nan bind py_real Apply.narrow_to_integer
       np_round or_else py_sub as_num abs_lt call_type int_of_float np_round_f
       num_re f_sub f_add f_neg f_abs f_of_Z dist Qminus].
  rewrite truncate_inject_Z.
  destruct round, force; cbn [orb];
    repeat match goal with
           | |- context [f_ltb ?a ?b] => destruct (f_ltb a b)
           end; reflexivity.
Qed.

(** An infinite float has no integer candidate: [int] raises on it, with or
    without [force]. *)
Lemma float_to_integer_infinite (force round : bool) (ftol : pyfloat) :
  Apply.float_to_integer (PyFloat PosInf) force round ftol TInt = Raise OverflowError
  /\ Apply.float_to_integer (PyFloat NegInf) force round ftol TInt = Raise OverflowError.
Proof. destruct round, ftol; split; reflexivity. Qed.

(** C3, amended.  For every finite float [q]: with [round] the candidate is
    the nearest integer (ties to even); without it the candidate is the
    nearest integer when that is strictly within [ftol] of [q], and the
    truncation of [q] otherwise; the candidate is returned iff [force] is set
    or it is strictly within [ftol] of [q], and the call raises [ValueError]
    otherwise.  With a positive tolerance, a fractional part of [ftol/2]
    converts without [force]; with a positive tolerance of at most 1/3, a
    fractional part of [2*ftol] fails without [force] and converts with
    it. *)
Theorem float_to_integer_policy (q : Q) (round force : bool) (ftol : pyfloat) :
  let nearest := round_half_even q in
  let candidate :=
    if round || f_ltb (Fin (dist nearest q)) ftol then nearest else truncate q in
  (forall z, dist nearest q <= dist z q)%Q
  /\ (Qabs (inject_Z (truncate q)) <= Qabs q /\ dist (truncate q) q < 1)%Q
  /\ Apply.float_to_integer (PyFloat (Fin q)) force round ftol TInt
     = (if force || f_ltb (Fin (dist candidate q)) ftol
        then Return (PyInt candidate) else Raise ValueError)
  /\ (forall t, (0 < t)%Q -> (frac q == (1 # 2) * t)%Q ->
        Apply.float_to_integer (PyFloat (Fin q)) false round (Fin t) TInt
        = Return (PyInt nearest))
  /\ (forall t, (0 < t)%Q -> (t <= 1 # 3)%Q -> (frac q == 2 * t)%Q ->
        Apply.float_to_integer (PyFloat (Fin q)) false round (Fin t) TInt
        = Raise ValueError
        /\ exists z,
            Apply.float_to_integer (PyFloat (Fin q)) true round (Fin t) TInt
            = Return (PyInt z)).
Proof.
  intros nearest candidate.
  split; [intros z; apply round_half_even_nearest |].
  split; [apply truncate_towards_zero |].
  split; [apply float_to_integer_fin |].
  split.
  - intros t Ht Hf. rewrite float_to_integer_fin. cbv zeta.
    rewrite (@half_tolerance_within q t Ht Hf), orb_true_r.
    rewrite (@half_tolerance_within q t Ht Hf). reflexivity.
  - intros t Ht Ht3 Hf. rewrite !float_to_integer_fin. cbv zeta.
    rewrite !(fun z => @double_tolerance_outside q t z Ht Ht3 Hf).
    split; [reflexivity | eexists; reflexivity].
Qed.

End FloatToInteger.

(** C3 as stated fails: with [ftol = 0.4] the float [0.8] has fractional part
    [2*ftol] and converts without [force], its nearest integer being within
    the tolerance; and an infinite float is returned by no setting. *)
Lemma float_to_integer_double_tolerance_converts :
  (frac (4 # 5) == 2 * (2 # 5))%Q
  /\ Apply.float_to_integer (E := Sample.externals)
       (PyFloat (Fin (4 # 5))) false true (Fin (2 # 5)) TInt = Return (PyInt 1)
  /\ Apply.float_to_integer (E := Sample.externals)
       (PyFloat (Fin (4 # 5))) false false (Fin (2 # 5)) TInt = Return (PyInt 1)
  /\ Apply.float_to_integer (E := Sample.externals)
       (PyFloat PosInf) true true default_ftol TInt = Raise OverflowError.
Proof. repeat split. Qed.

Lemma float_to_integer_policy_witness :
  ((0 < 2 # 5)%Q /\ (frac (1 # 5) == (1 # 2) * (2 # 5))%Q
   /\ Apply.float_to_integer (E := Sample.externals)
        (PyFloat (Fin (1 # 5))) false true (Fin (2 # 5)) TInt = Return (PyInt 0))
  /\ ((0 < 1 # 10)%Q /\ (1 # 10 <= 1 # 3)%Q /\ (frac (1 # 5) == 2 * (1 # 10))%Q
      /\ Apply.float_to_integer (E := Sample.externals)
           (PyFloat (Fin (1 # 5))) false true (Fin (1 # 10)) TInt = Raise ValueError).
Proof.
  pose proof (float_to_integer_policy (E := Sample.externals) (1 # 5) true false
                (Fin (2 # 5))) as (_ & _ & _ & Hhalf & Hdouble).
  assert (H1 : (0 < 2 # 5)%Q) by reflexivity.
  assert (H2 : (frac (1 # 5) == (1 # 2) * (2 # 5))%Q) by reflexivity.
  assert (H3 : (0 < 1 # 10)%Q) by reflexivity.
  assert (H4 : (1 # 10 <= 1 # 3)%Q) by (unfold Qle; simpl; lia).
  assert (H5 : (frac (1 # 5) == 2 * (1 # 10))%Q) by reflexivity.
  exact (conj (conj H1 (conj H2 (Hhalf _ H1 H2)))
              (conj H3 (conj H4 (conj H5 (proj1 (Hdouble _ H3 H4 H5)))))).
Defined.

(** ** Datetimes and timedeltas *)

Section EpochBridge.
Context {E : Externals}.


End EpochBridge.


(** ** The string inferencer *)

Section InferenceProperties.
Context {E : Externals}.











End InferenceProperties.


(** ** Forcing a narrowing conversion *)

Section ForceBypass.
Context {E : Externals}.


(** The body shared by the rules to integers, on a finite real [q] compared
    with [y]: [g z] is the test [abs(z - y) < ftol]. *)
Lemma narrow_to_integer_real (q : Q) (y : pyval) (g : Z -> bool)
      (round force : bool) (ftol : pyfloat) :
  (forall z, (d <- py_sub (PyInt z) y ;; abs_lt d ftol) = Return (g z)) ->
  (forall z, py_sub (PyFloat (f_of_Z z)) y = py_sub (PyInt z) y) ->
  Apply.narrow_to_integer (PyFloat (Fin q)) y round force ftol TInt
  = (let nearest := round_half_even q in
     let candidate := if round || g nearest then nearest else truncate q in
     if force || g candidate then Return (PyInt candidate) else Raise ValueError).
Proof.
  intros Hg Hsub. unfold Apply.narrow_to_integer.
  cbn [np_round np_round_f bind].
  change (Fin (inject_Z (round_half_even q))) with (f_of_Z (round_half_even q)).
  rewrite Hsub, Hg. cbv zeta.
  destruct round; cbn [or_else orb bind].
  - cbn [call_type int_of_float f_of_Z bind]. rewrite truncate_inject_Z.
    rewrite Hg. destruct force; cbn [or_else orb bind]; [reflexivity |].
    destruct (g (round_half_even q)); reflexivity.
  - destruct (g (round_half_even q)) eqn:Hn;
      cbn [call_type int_of_float f_of_Z bind];
      rewrite ?truncate_inject_Z, Hg;
      destruct force; cbn [or_else orb bind]; rewrite ?Hn; reflexivity.
Qed.



Lemma sub_float (ftol fy : pyfloat) :
  (forall z, (d <- py_sub (PyInt z) (PyFloat fy) ;; abs_lt d ftol)
             = Return (f_ltb (f_abs (f_sub (f_of_Z z) fy)) ftol))
  /\ (forall z, py_sub (PyFloat (f_of_Z z)) (PyFloat fy) = py_sub (PyInt z) (PyFloat fy))
  /\ (forall v, (d <- py_sub (PyFloat v) (PyFloat fy) ;; abs_lt d ftol)
                = Return (f_ltb (f_abs (f_sub v fy)) ftol))
  /\ (forall b, (d <- py_sub (PyBool b) (PyFloat fy) ;; abs_lt d ftol)
                = Return (f_ltb (f_abs (f_sub (f_of_Z (Z.b2z b)) fy)) ftol)).
Proof. repeat split. Qed.

Lemma sub_complex (ftol re im : pyfloat) :
  (forall z, (d <- py_sub (PyInt z) (PyComplex re im) ;; abs_lt d ftol)
             = Return (c_abs_ltb (f_sub (f_of_Z z) re) (f_sub (Fin 0) im) ftol))
  /\ (forall z, py_sub (PyFloat (f_of_Z z)) (PyComplex re im)
                = py_sub (PyInt z) (PyComplex re im))
  /\ (forall v, (d <- py_sub (PyFloat v) (PyComplex re im) ;; abs_lt d ftol)
                = Return (c_abs_ltb (f_sub v re) (f_sub (Fin 0) im) ftol))
  /\ (forall b, (d <- py_sub (PyBool b) (PyComplex re im) ;; abs_lt d ftol)
                = Return (c_abs_ltb (f_sub (f_of_Z (Z.b2z b)) re) (f_sub (Fin 0) im) ftol)).
Proof. repeat split. Qed.

End ForceBypass.



(** ** The entry points on non-null elements *)

Section Unbound.
Context {E : Externals}.

(** What the rules the scenario of C2 is meant to reach do on their own. *)
Lemma float_to_boolean_scenario :
  Apply._float_to_boolean (PyFloat (Fin (10000001 # 10000000))) false default_ftol TBool
  = Return (PyBool true)
  /\ Apply._float_to_boolean (PyFloat (Fin (11 # 10))) false default_ftol TBool
     = Raise ValueError.
Proof. split; reflexivity. Qed.

(** [parse_string] declares no [format]: the call the rules from strings
    make raises [TypeError]. *)
Lemma infer_rejects_format (element : pyval) (format : option string) :
  Apply.infer element format = Raise TypeError.
Proof. reflexivity. Qed.

(** C2 (the code departs from it).  [to_boolean("1.0000001", ftol=1e-6)] and
    [to_boolean("1.1", ftol=1e-6)] both raise [NameError] while the
    conversion map is built: [_integer_to_boolean] is not bound. *)
Theorem to_boolean_scenario_unbound :
  Apply.to_boolean (PyStr "1.0000001") false (Fin (1 # 1000000)) None TBool
  = Raise NameError
  /\ Apply.to_boolean (PyStr "1.1") false (Fin (1 # 1000000)) None TBool
     = Raise NameError.
Proof. split; apply to_boolean_unbound; reflexivity. Qed.

(** C4 (the code departs from it).  On the integer 1 every entry point
    raises [NameError], from the construction of the conversion map, which
    stands outside the [try] that turns [KeyError] and [ValueError] into the
    conversion error. *)
Theorem entry_points_leak_NameError :
  Apply.to_integer (PyInt 1) false false default_ftol None TInt = Raise NameError
  /\ Apply.to_float (PyInt 1) false default_ftol None TFloat = Raise NameError
  /\ Apply.to_complex (PyInt 1) None TComplex = Raise NameError
  /\ Apply.to_boolean (PyInt 1) false default_ftol None TBool = Raise NameError
  /\ Apply.to_string (PyInt 1) None TStr = Raise NameError
  /\ Apply.to_datetime (PyInt 1) false default_ftol None None TTimestamp
     = Raise NameError
  /\ Apply.to_timedelta (PyInt 1) false default_ftol TPdTimedelta = Raise NameError
  /\ NameError <> ValueError.
Proof. repeat split. discriminate. Qed.

(** The three rules the round trip of C7 is meant to go through. *)
Lemma rule_roundtrip (n : Z) :
  Apply.integer_to_float (PyInt n) TFloat = Return (PyFloat (f_of_Z n))
  /\ Apply.float_to_integer (PyFloat (f_of_Z n)) false false default_ftol TInt
     = Return (PyInt n).
Proof.
  split; [reflexivity |].
  unfold f_of_Z. rewrite float_to_integer_fin. cbv zeta.
  rewrite round_half_even_inject_Z.
  assert (H : f_ltb (Fin (dist n (inject_Z n))) default_ftol = true).
  { cbn [f_ltb default_ftol]. apply Qltb_lt. unfold dist.
    setoid_replace (inject_Z n - inject_Z n)%Q with 0%Q by ring. reflexivity. }
  rewrite H. cbn [orb]. rewrite H. reflexivity.
Qed.

(** C7 (the code departs from it).  For every integer [n] the composition
    [to_float(to_integer(to_float(n)))] raises [NameError] at its first
    call. *)
Theorem float_integer_float_unbound (n : Z) :
  (x <- Apply.to_float (PyInt n) false default_ftol None TFloat ;;
   y <- Apply.to_integer x false false default_ftol None TInt ;;
   Apply.to_float y false default_ftol None TFloat)
  = Raise NameError.
Proof. rewrite to_float_unbound by reflexivity. reflexivity. Qed.

(** C10 (the code departs from it).  The conversion maps of [to_datetime]
    and [to_timedelta] are written without a cell for [object] and the five
    others with one, but on a bare object all seven entry points raise
    [NameError] before any cell is looked up. *)
Theorem object_cells (id : nat) (round force : bool) (ftol : pyfloat)
        (format : option string) (return_type : pytype) :
  (~ In KObject (Apply.keys_of (Apply.to_datetime_map force ftol format return_type))
   /\ ~ In KObject (Apply.keys_of (Apply.to_timedelta_map force ftol return_type))
   /\ In KObject (Apply.keys_of
                    (Apply.to_integer_map (PyObject id) round force ftol format
                       return_type))
   /\ In KObject (Apply.keys_of (Apply.to_float_map force ftol format return_type))
   /\ In KObject (Apply.keys_of (Apply.to_complex_map format return_type))
   /\ In KObject (Apply.keys_of (Apply.to_boolean_map force ftol format return_type))
   /\ In KObject (Apply.keys_of (Apply.to_string_map format return_type)))
  /\ Apply.to_datetime (PyObject id) force ftol format None return_type
     = Raise NameError
  /\ Apply.to_timedelta (PyObject id) force ftol return_type = Raise NameError
  /\ Apply.to_integer (PyObject id) round force ftol format return_type
     = Raise NameError
  /\ Apply.to_float (PyObject id) force ftol format return_type = Raise NameError
  /\ Apply.to_complex (PyObject id) format return_type = Raise NameError
  /\ Apply.to_boolean (PyObject id) force ftol format return_type = Raise NameError
  /\ Apply.to_string (PyObject id) format return_type = Raise NameError.
Proof.
  split; [| repeat split].
  cbn [Apply.keys_of map fst Apply.to_datetime_map Apply.to_timedelta_map
       Apply.to_integer_map Apply.to_float_map Apply.to_complex_map
       Apply.to_boolean_map Apply.to_string_map In].
  repeat split; try solve [intuition discriminate]; tauto.
Qed.

End Unbound.

(** * Further properties of the kernel *)

(** ** Missing values, rule by rule *)

Section RuleNulls.
Context {E : Externals}.

(** Every rule of the module returns, on a null element and whatever its
    options, the missing value of its target: [np.nan], [pd.NA] or [pd.NaT],
    and [None] in [integer_to_string] and [float_to_string]. *)
Theorem rules_return_missing (element : pyval) :
  isnull element = true ->
  Forall (fun rule => forall kw,
              fn_body (snd rule) kw element = Return (missing_of (fst rule)))
         Apply.module_namespace.
Proof.
  intros H.
  unfold Apply.module_namespace, Apply.rule_namespace, Apply.string_rule_namespace.
  cbn [app].
  repeat (apply Forall_cons;
          [ intros kw; cbn [fst snd fn_body Apply.def];
            unfold Apply.integer_to_float, Apply.integer_to_complex,
              Apply.integer_to_string, Apply.integer_to_boolean,
              Apply.integer_to_datetime, Apply.integer_to_timedelta,
              Apply.float_to_integer, Apply.float_to_complex, Apply.float_to_string,
              Apply._float_to_boolean, Apply._float_to_datetime,
              Apply._float_to_timedelta, Apply._complex_to_integer,
              Apply._complex_to_float, Apply._complex_to_string,
              Apply._complex_to_boolean, Apply._complex_to_datetime,
              Apply._complex_to_timedelta, Apply._string_to_integer,
              Apply._string_to_float, Apply._string_to_complex,
              Apply._string_to_boolean, Apply._string_to_datetime,
              Apply._string_to_timedelta, Apply._boolean_to_integer,
              Apply._boolean_to_float, Apply._boolean_to_complex,
              Apply._boolean_to_string, Apply._boolean_to_datetime,
              Apply._boolean_to_timedelta, Apply._datetime_to_integer,
              Apply._datetime_to_float, Apply._datetime_to_complex,
              Apply._datetime_to_string, Apply._datetime_to_boolean,
              Apply._datetime_to_timedelta, Apply._timedelta_to_integer,
              Apply._timedelta_to_float, Apply._timedelta_to_complex,
              Apply._timedelta_to_string, Apply._timedelta_to_boolean,
              Apply._timedelta_to_datetime;
            rewrite H; reflexivity
          | ]).
  apply Forall_nil.
Qed.

End RuleNulls.

Lemma rules_return_missing_witness :
  isnull (PyFloat NaN) = true
  /\ Apply.integer_to_string (E := Sample.externals) (PyFloat NaN) TStr = Return PyNone
  /\ Apply._complex_to_string (E := Sample.externals) (PyFloat NaN) TStr = Return PdNA.
Proof.
  pose proof (rules_return_missing (E := Sample.externals) (PyFloat NaN) eq_refl) as H.
  split; [reflexivity |]. split.
  - exact (Forall_inv (Forall_inv_tail (Forall_inv_tail H)) no_kw).
  - do 14 apply Forall_inv_tail in H. exact (Forall_inv H no_kw).
Defined.

(** ** What the entry points and the rules from strings never do *)

Section NeverConvert.
Context {E : Externals}.

(** On a non-null element no entry point converts anything: each raises
    [NameError], whatever the element and the options. *)
Theorem entry_points_never_convert (element : pyval) :
  isnull element = false ->
  (forall round force ftol format return_type,
      Apply.to_integer element round force ftol format return_type = Raise NameError)
  /\ (forall force ftol format return_type,
      Apply.to_float element force ftol format return_type = Raise NameError)
  /\ (forall format return_type,
      Apply.to_complex element format return_type = Raise NameError)
  /\ (forall force ftol format return_type,
      Apply.to_boolean element force ftol format return_type = Raise NameError)
  /\ (forall format return_type,
      Apply.to_string element format return_type = Raise NameError)
  /\ (forall force ftol format func return_type,
      Apply.to_datetime element force ftol format func return_type = Raise NameError)
  /\ (forall force ftol return_type,
      Apply.to_timedelta element force ftol return_type = Raise NameError).
Proof.
  intros H. repeat apply conj; intros.
  - apply to_integer_unbound, H.
  - apply to_float_unbound, H.
  - apply to_complex_unbound, H.
  - apply to_boolean_unbound, H.
  - apply to_string_unbound, H.
  - apply to_datetime_unbound, H.
  - apply to_timedelta_unbound, H.
Qed.


End NeverConvert.

Lemma entry_points_never_convert_witness :
  isnull (PyFloat (Fin (3 # 2))) = false
  /\ Apply.to_integer (E := Sample.externals) (PyFloat (Fin (3 # 2))) true true
       default_ftol None TInt = Raise NameError
  /\ Apply.to_string (E := Sample.externals) (PyFloat (Fin (3 # 2))) None TStr
     = Raise NameError.
Proof.
  destruct (entry_points_never_convert (E := Sample.externals)
              (PyFloat (Fin (3 # 2))) eq_refl) as (H1 & _ & _ & _ & H5 & _).
  exact (conj eq_refl (conj (H1 _ _ _ _ _) (H5 _ _))).
Defined.


(** ** Conversion maps *)

Section ConversionMaps.

Lemma dict_keys (entries : list (kind * outcome Apply.callable))
      (m : list (kind * Apply.callable)) :
  Apply.dict entries = Return m -> Apply.keys_of m = Apply.keys_of entries.
Proof.
  revert m. induction entries as [| [k v] rest IH]; intros m H; cbn [Apply.dict] in H.
  - injection H as <-. reflexivity.
  - destruct v as [f | e]; cbn [bind] in H; [| discriminate H].
    destruct (Apply.dict rest) as [m' | e]; cbn [bind] in H; [| discriminate H].
    injection H as <-. unfold Apply.keys_of in *. cbn [map fst].
    rewrite (IH m' eq_refl). reflexivity.
Qed.

Lemma getitem_missing (m : list (kind * Apply.callable)) (k : kind) :
  Apply.getitem m k = Raise KeyError <-> ~ In k (Apply.keys_of m).
Proof.
  unfold Apply.getitem, Apply.keys_of.
  induction m as [| [k' f] m IH]; cbn [find map fst In].
  - split; [intros _ [] | reflexivity].
  - destruct (kind_eqb k' k) eqn:Hk.
    + split; [discriminate |]. intros Hn. exfalso. apply Hn. left.
      destruct k', k; (reflexivity || discriminate Hk).
    + rewrite IH. split.
      * intros Hn [Heq | Hin]; [| exact (Hn Hin)].
        subst k'. destruct k; discriminate Hk.
      * intros Hn Hin. apply Hn. right. exact Hin.
Qed.

(** A conversion map that could be built holds a cell for exactly the kinds
    it is written with.  Applying it at a kind it has no cell for raises
    [ValueError], at a kind it has a cell for runs the first such cell, and
    no application raises [KeyError]; an exception of the cell that is
    neither [KeyError] nor [ValueError] comes out unchanged. *)
Theorem conversion_map_lookup (entries : list (kind * outcome Apply.callable))
        (m : list (kind * Apply.callable)) (k : kind) (x : pyval) :
  Apply.dict entries = Return m ->
  (~ In k (Apply.keys_of entries) -> Apply.apply_cell m k x = Raise ValueError)
  /\ (In k (Apply.keys_of entries) ->
      exists f, Apply.getitem m k = Return f
                /\ Apply.apply_cell m k x
                   = try_except (f x) [KeyError; ValueError] (Raise ValueError))
  /\ Apply.apply_cell m k x <> Raise KeyError
  /\ (forall f e, Apply.getitem m k = Return f -> f x = Raise e ->
                  e <> KeyError -> e <> ValueError ->
                  Apply.apply_cell m k x = Raise e).
Proof.
  intros H. apply dict_keys in H. rewrite <- H.
  split; [| split; [| split]].
  - intros Hn. apply getitem_missing in Hn.
    unfold Apply.apply_cell. rewrite Hn. reflexivity.
  - intros Hin. unfold Apply.apply_cell.
    destruct (Apply.getitem m k) as [f | e] eqn:Hg.
    + exists f. split; reflexivity.
    + exfalso. assert (He : e = KeyError).
      { unfold Apply.getitem in Hg.
        destruct (find (fun p => kind_eqb (fst p) k) m); congruence. }
      subst e. apply getitem_missing in Hg. exact (Hg Hin).
  - unfold Apply.apply_cell, try_except.
    destruct (f <- Apply.getitem m k ;; f x) as [v | e]; [discriminate |].
    destruct (existsb (exn_eqb e) [KeyError; ValueError]) eqn:He; [discriminate |].
    intros Hk. injection Hk as ->. discriminate He.
  - intros f e Hg Hf Hk Hv. unfold Apply.apply_cell. rewrite Hg. cbn [bind].
    rewrite Hf. destruct e; cbn; congruence.
Qed.

End ConversionMaps.

Lemma conversion_map_lookup_witness :
  let entries := [ (KComplex, Apply.lambda (fun x => call_type (E := Sample.externals)
                                                       TComplex x)) ] in
  let m := [ (KComplex, fun x => call_type (E := Sample.externals) TComplex x) ] in
  Apply.dict entries = Return m
  /\ ~ In KObject (Apply.keys_of entries)
  /\ Apply.apply_cell m KObject (PyObject 0) = Raise ValueError
  /\ In KComplex (Apply.keys_of entries)
  /\ Apply.apply_cell m KComplex (PyInt 2) = Return (PyComplex (f_of_Z 2) (Fin 0)).
Proof.
  intros entries m.
  assert (D : Apply.dict entries = Return m) by reflexivity.
  assert (N : ~ In KObject (Apply.keys_of entries))
    by (cbn; intros [H | []]; discriminate H).
  assert (I : In KComplex (Apply.keys_of entries)) by (left; reflexivity).
  destruct (@conversion_map_lookup entries m KObject (PyObject 0) D)
    as (Hmiss & _).
  destruct (@conversion_map_lookup entries m KComplex (PyInt 2) D)
    as (_ & Hcell & _).
  destruct (Hcell I) as (f & Hf & Ha).
  injection Hf as <-.
  exact (conj D (conj N (conj (Hmiss N) (conj I Ha)))).
Defined.

(** ** Classification and inference *)

Section Classification.
Context {E : Externals}.


(** [parse_string] never raises [ValueError], and never a [TypeError] of the
    three builtin parses: what it raises was raised by [pd.to_timedelta] or
    [pd.to_datetime] and is not a [ValueError], or by a builtin parse and is
    neither. *)
Theorem parse_string_raises (s : string) (e : exn) :
  Parse.parse_string s = Raise e ->
  e <> ValueError
  /\ ((e <> TypeError
       /\ (int_of_str s = Raise e \/ float_of_str s = Raise e
           \/ complex_of_str s = Raise e))
      \/ pd_to_timedelta s = Raise e \/ pd_to_datetime s = Raise e).
Proof.
  unfold Parse.parse_string, try_except.
  destruct (int_of_str s) as [z | e1]; cbn [bind]; [discriminate |].
  destruct (existsb (exn_eqb e1) [TypeError; ValueError]) eqn:H1.
  2:{ intros H. injection H as <-.
      split; [| left; split; [| left; reflexivity]]; intros ->; discriminate H1. }
  destruct (float_of_str s) as [f | e2]; cbn [bind]; [discriminate |].
  destruct (existsb (exn_eqb e2) [TypeError; ValueError]) eqn:H2.
  2:{ intros H. injection H as <-.
      split; [| left; split; [| right; left; reflexivity]]; intros ->; discriminate H2. }
  destruct (complex_of_str s) as [c | e3]; cbn [bind]; [discriminate |].
  destruct (existsb (exn_eqb e3) [TypeError; ValueError]) eqn:H3.
  2:{ intros H. injection H as <-.
      split; [| left; split; [| right; right; reflexivity]]; intros ->; discriminate H3. }
  destruct (pd_to_timedelta s) as [v | e4]; [discriminate |].
  destruct (existsb (exn_eqb e4) [ValueError]) eqn:H4.
  2:{ intros H. injection H as <-.
      split; [intros ->; discriminate H4 | right; left; reflexivity]. }
  destruct (pd_to_datetime s) as [v | e5]; [discriminate |].
  destruct (existsb (exn_eqb e5) [ValueError]) eqn:H5.
  2:{ intros H. injection H as <-.
      split; [intros ->; discriminate H5 | right; right; reflexivity]. }
  cbv zeta.
  destruct (Parse.str_in _ ["t"; "true"]%string); [discriminate |].
  destruct (Parse.str_in _ ["f"; "false"]%string); discriminate.
Qed.

End Classification.

(** ** The loss policy *)

Lemma Qltb_comp (a a' b b' : Q) :
  (a == a')%Q -> (b == b')%Q -> Qltb a b = Qltb a' b'.
Proof.
  intros Ha Hb. destruct (Qltb a' b') eqn:H.
  - apply Qltb_lt. rewrite Ha, Hb. apply Qltb_lt, H.
  - apply Qltb_ge. rewrite Ha, Hb. apply Qltb_ge, H.
Qed.

Lemma f_ltb_mono (a b : Q) (t : pyfloat) :
  (a <= b)%Q -> f_ltb (Fin b) t = true -> f_ltb (Fin a) t = true.
Proof.
  intros Hab. destruct t as [q | | |]; cbn [f_ltb]; try (intros H; exact H).
  intros H. apply Qltb_lt. apply Qltb_lt in H. lra.
Qed.


(** The modulus of a complex number bounds its two parts. *)
Lemma c_abs_ltb_parts (a c t : pyfloat) :
  c_abs_ltb a c t = true ->
  f_ltb (f_abs a) t = true /\ f_ltb (f_abs c) t = true.
Proof.
  destruct a as [x | | |], c as [y | | |]; try discriminate.
  destruct t as [b | | |]; cbn [c_abs_ltb f_ltb f_abs]; try discriminate;
    [| split; reflexivity].
  intros H. apply andb_true_iff in H. destruct H as [Hb H].
  apply Qltb_lt in Hb, H.
  split; apply Qltb_lt; apply Qabs_case; intros; nra.
Qed.

(** With the same imaginary part, the closer real part has the smaller
    modulus. *)
Lemma c_abs_ltb_mono (a b : Q) (c t : pyfloat) :
  (Qabs a <= Qabs b)%Q ->
  c_abs_ltb (Fin b) c t = true -> c_abs_ltb (Fin a) c t = true.
Proof.
  intros Hab. destruct c as [y | | |]; cbn [c_abs_ltb]; try discriminate.
  destruct t as [u | | |]; try discriminate; [| reflexivity].
  intros H. apply andb_true_iff in H. destruct H as [Hu H].
  rewrite Hu. cbn [andb]. apply Qltb_lt. apply Qltb_lt in H.
  assert (Hsq : (a * a <= b * b)%Q).
  { revert Hab. apply Qabs_case; intros Ha; apply Qabs_case; intros Hb Hab; nra. }
  lra.
Qed.

Section LossPolicy.
Context {E : Externals}.

Lemma narrow_to_integer_force (x y : pyval) (round : bool) (ftol : pyfloat)
      (return_type : pytype) (v : pyval) :
  Apply.narrow_to_integer x y round false ftol return_type = Return v ->
  Apply.narrow_to_integer x y round true ftol return_type = Return v.
Proof.
  unfold Apply.narrow_to_integer.
  destruct (np_round x) as [rounded | e]; cbn [bind]; [| discriminate].
  destruct (or_else round (d <- py_sub rounded y ;; abs_lt d ftol)) as [snap | e];
    cbn [bind]; [| discriminate].
  destruct (if snap then call_type return_type rounded else call_type return_type x)
    as [result | e]; cbn [bind or_else]; [| discriminate].
  destruct (d <- py_sub result y ;; abs_lt d ftol) as [[|] | e]; cbn [bind];
    (discriminate || (intros H; exact H)).
Qed.

Lemma narrow_to_boolean_force (x y : pyval) (ftol : pyfloat)
      (return_type : pytype) (v : pyval) :
  Apply.narrow_to_boolean x y false ftol return_type = Return v ->
  Apply.narrow_to_boolean x y true ftol return_type = Return v.
Proof.
  unfold Apply.narrow_to_boolean.
  destruct (np_round x) as [rounded | e]; cbn [bind]; [| discriminate].
  destruct (d <- py_sub rounded y ;; abs_lt d ftol) as [snap | e];
    cbn [bind]; [| discriminate].
  destruct (if snap then call_type return_type rounded else call_type return_type x)
    as [result | e]; cbn [bind or_else]; [| discriminate].
  destruct (d <- py_sub result y ;; abs_lt d ftol) as [[|] | e]; cbn [bind];
    (discriminate || (intros H; exact H)).
Qed.

(** [force] only turns failures into results: what a narrowing rule returns
    without [force] it returns with it, on every element. *)
Theorem force_keeps_results (r : narrowing) (element : pyval) (round : bool)
        (ftol : pyfloat) (v : pyval) :
  run_narrowing r element round false ftol = Return v ->
  run_narrowing r element round true ftol = Return v.
Proof.
  destruct r; cbn [run_narrowing];
    unfold Apply.float_to_integer, Apply._float_to_boolean, Apply._complex_to_integer,
      Apply._complex_to_float, Apply._complex_to_boolean, Apply._complex_to_datetime,
      Apply._complex_to_timedelta, Apply._datetime_to_integer,
      Apply._datetime_to_boolean, Apply._timedelta_to_integer,
      Apply._timedelta_to_boolean, Apply.imag_within, Apply.within_or_force;
    destruct (isnull element); try (intros H; exact H).
  - destruct (py_real element); cbn [bind]; [apply narrow_to_integer_force | discriminate].
  - destruct (py_real element); cbn [bind]; [apply narrow_to_boolean_force | discriminate].
  - destruct (py_real element); cbn [bind]; [apply narrow_to_integer_force | discriminate].
  - cbn [or_else]. destruct (im <- py_imag element ;; abs_lt im ftol) as [[|] | e];
      cbn [bind]; (discriminate || (intros H; exact H)).
  - destruct (py_real element); cbn [bind]; [apply narrow_to_boolean_force | discriminate].
  - cbn [or_else]. destruct (im <- py_imag element ;; abs_lt im ftol) as [[|] | e];
      cbn [bind]; (discriminate || (intros H; exact H)).
  - cbn [or_else]. destruct (im <- py_imag element ;; abs_lt im ftol) as [[|] | e];
      cbn [bind]; (discriminate || (intros H; exact H)).
  - destruct (Apply.utc_timestamp element); cbn [bind];
      [apply narrow_to_integer_force | discriminate].
  - destruct (Apply.utc_timestamp element) as [ts | e]; cbn [bind]; [| discriminate].
    destruct (call_type TBool ts) as [result | e]; cbn [bind]; [| discriminate].
    destruct (py_sub result ts) as [d | e]; cbn [bind]; [| discriminate].
    destruct (abs_lt d ftol) as [[|] | e]; cbn [bind orb];
      (discriminate || (intros H; exact H)).
  - destruct (py_total_seconds element); cbn [bind];
      [apply narrow_to_integer_force | discriminate].
  - destruct (py_total_seconds element) as [ts | e]; cbn [bind]; [| discriminate].
    destruct (call_type TBool ts) as [result | e]; cbn [bind]; [| discriminate].
    destruct (py_sub result ts) as [d | e]; cbn [bind]; [| discriminate].
    destruct (abs_lt d ftol) as [[|] | e]; cbn [bind orb];
      (discriminate || (intros H; exact H)).
Qed.

End LossPolicy.

Section RoundFlag.
Context {E : Externals}.

Lemma round_irrelevant (q : Q) (y : pyval) (g : Z -> bool) (ftol : pyfloat) :
  (forall z, (d <- py_sub (PyInt z) y ;; abs_lt d ftol) = Return (g z)) ->
  (forall z, py_sub (PyFloat (f_of_Z z)) y = py_sub (PyInt z) y) ->
  (g (truncate q) = true -> g (round_half_even q) = true) ->
  Apply.narrow_to_integer (PyFloat (Fin q)) y true false ftol TInt
  = Apply.narrow_to_integer (PyFloat (Fin q)) y false false ftol TInt.
Proof.
  intros Hg Hsub Hmono.
  rewrite !(@narrow_to_integer_real _ q y g _ _ ftol Hg Hsub). cbv zeta. cbn [orb].
  destruct (g (round_half_even q)) eqn:Hn; cbv beta iota; rewrite ?Hn;
    [reflexivity |].
  destruct (g (truncate q)) eqn:Ht; [| reflexivity].
  discriminate (Hmono eq_refl).
Qed.

Lemma real_gate_mono (q : Q) (ftol : pyfloat) :
  f_ltb (f_abs (f_sub (f_of_Z (truncate q)) (Fin q))) ftol = true ->
  f_ltb (f_abs (f_sub (f_of_Z (round_half_even q)) (Fin q))) ftol = true.
Proof.
  cbn [f_of_Z f_sub f_add f_neg f_abs]. apply f_ltb_mono.
  exact (round_half_even_nearest q (truncate q)).
Qed.

(** Without [force] the [round] flag changes nothing: a rule to integers
    returns the nearest integer or fails, since the truncated value is never
    within a tolerance the nearest integer is outside of. *)
Theorem round_matters_only_under_force (element : pyval) (f re im : pyfloat)
        (ftol : pyfloat) :
  Apply.float_to_integer (PyFloat f) false true ftol TInt
  = Apply.float_to_integer (PyFloat f) false false ftol TInt
  /\ Apply._complex_to_integer (PyComplex re im) true false ftol TInt
     = Apply._complex_to_integer (PyComplex re im) false false ftol TInt
  /\ Apply._datetime_to_integer element true false ftol TInt
     = Apply._datetime_to_integer element false false ftol TInt
  /\ Apply._timedelta_to_integer element true false ftol TInt
     = Apply._timedelta_to_integer element false false ftol TInt.
Proof.
  split; [| split; [| split]].
  - unfold Apply.float_to_integer.
    destruct f as [q | | |]; cbn [isnull f_is_nan py_real bind]; try reflexivity.
    destruct (sub_float ftol (Fin q)) as (Hg & Hs & _).
    eapply round_irrelevant; [exact Hg | exact Hs | apply real_gate_mono].
  - unfold Apply._complex_to_integer. cbn [isnull].
    destruct (f_is_nan re || f_is_nan im); [reflexivity |].
    cbn [py_real bind].
    destruct re as [q | | |]; try reflexivity.
    destruct (sub_complex ftol (Fin q) im) as (Hg & Hs & _).
    eapply round_irrelevant; [exact Hg | exact Hs |].
    cbn [f_of_Z f_sub f_add f_neg]. apply c_abs_ltb_mono.
    exact (round_half_even_nearest q (truncate q)).
  - unfold Apply._datetime_to_integer, Apply.utc_timestamp.
    destruct (isnull element); [reflexivity |].
    destruct (to_utc element) as [u | e]; cbn [bind]; [| reflexivity].
    destruct u; cbn [py_timestamp bind]; try reflexivity.
    destruct (sub_float ftol (Fin (dt_epoch_us d # 1000000))) as (Hg & Hs & _).
    eapply round_irrelevant; [exact Hg | exact Hs | apply real_gate_mono].
  - unfold Apply._timedelta_to_integer.
    destruct (isnull element); [reflexivity |].
    destruct element; cbn [py_total_seconds bind]; try reflexivity.
    destruct (sub_float ftol (Fin (td_us t # 1000000))) as (Hg & Hs & _).
    eapply round_irrelevant; [exact Hg | exact Hs | apply real_gate_mono].
Qed.


End RoundFlag.

Section WithinTolerance.
Context {E : Externals}.

Lemma f_abs_sub_zero (im t : pyfloat) :
  f_ltb (f_abs (f_sub (Fin 0) im)) t = f_ltb (f_abs im) t.
Proof.
  destruct im as [y | | |]; try reflexivity.
  cbn [f_sub f_add f_neg f_abs].
  destruct t as [b | | |]; cbn [f_ltb]; try reflexivity.
  apply Qltb_comp; [| reflexivity].
  setoid_replace (0 + - y)%Q with (- y)%Q by ring. apply Qabs_opp.
Qed.

Lemma unforced_integer (q : Q) (y : pyval) (g : Z -> bool) (round : bool)
      (ftol : pyfloat) (v : pyval) :
  (forall z, (d <- py_sub (PyInt z) y ;; abs_lt d ftol) = Return (g z)) ->
  (forall z, py_sub (PyFloat (f_of_Z z)) y = py_sub (PyInt z) y) ->
  (g (truncate q) = true -> g (round_half_even q) = true) ->
  Apply.narrow_to_integer (PyFloat (Fin q)) y round false ftol TInt = Return v ->
  v = PyInt (round_half_even q) /\ g (round_half_even q) = true.
Proof.
  intros Hg Hsub Hmono.
  rewrite (@narrow_to_integer_real _ q y g round false ftol Hg Hsub). cbv zeta.
  cbn [orb].
  destruct round; cbn [orb].
  - destruct (g (round_half_even q)) eqn:Hn; [| discriminate].
    intros H. injection H as <-. split; reflexivity.
  - destruct (g (round_half_even q)) eqn:Hn.
    + rewrite Hn. intros H. injection H as <-. split; reflexivity.
    + destruct (g (truncate q)) eqn:Ht; [| discriminate].
      discriminate (Hmono eq_refl).
Qed.

Lemma unforced_boolean (f : pyfloat) (y : pyval) (h : pyfloat -> bool)
      (ftol : pyfloat) (v : pyval) :
  (forall u, (d <- py_sub (PyFloat u) y ;; abs_lt d ftol) = Return (h u)) ->
  (forall b, (d <- py_sub (PyBool b) y ;; abs_lt d ftol)
             = Return (h (f_of_Z (Z.b2z b)))) ->
  Apply.narrow_to_boolean (PyFloat f) y false ftol TBool = Return v ->
  exists c, v = PyBool c /\ h (f_of_Z (Z.b2z c)) = true.
Proof.
  intros Hh Hb. unfold Apply.narrow_to_boolean.
  cbn [np_round bind]. rewrite Hh. cbn [bind].
  destruct (h (np_round_f f)); cbn [call_type bind or_else]; rewrite Hb; cbn [bind];
    match goal with
    | |- context [h (f_of_Z (Z.b2z ?c))] =>
        destruct (h (f_of_Z (Z.b2z c))) eqn:Hc; [| discriminate];
        intros H; injection H as <-; exists c; split; [reflexivity | exact Hc]
    end.
Qed.

(** What a narrowing rule returns without [force] is strictly within [ftol]
    of the number it narrows; a returned integer is the nearest one; and a
    complex number is narrowed only when its imaginary part is strictly
    within [ftol] of zero. *)
Theorem narrowing_within_tolerance (r : narrowing) (element : pyval) (round : bool)
        (ftol b : pyfloat) (v : pyval) :
  isnull element = false ->
  bridge r element = Return b ->
  run_narrowing r element round false ftol = Return v ->
  (forall n, real_of v = Some n -> f_ltb (f_abs (f_sub n b)) ftol = true)
  /\ (forall z, v = PyInt z -> forced_candidate r true b = Some v)
  /\ (forall re im, element = PyComplex re im -> f_ltb (f_abs im) ftol = true).
Proof.
  intros Hnull Hb Hrun.
  destruct r; destruct element; try discriminate Hb; cbn [bridge] in Hb;
    cbn [run_narrowing] in Hrun.
  - (* float to integer *)
    injection Hb as <-. unfold Apply.float_to_integer in Hrun. rewrite Hnull in Hrun.
    cbn [py_real bind] in Hrun.
    destruct f as [q | | |];
      [| destruct round; discriminate Hrun .. | discriminate Hnull].
    destruct (sub_float ftol (Fin q)) as (Hg & Hs & _).
    destruct (@unforced_integer q _ _ round ftol v Hg Hs (real_gate_mono q ftol) Hrun)
      as [-> Hn].
    split; [| split].
    + intros n Hv. injection Hv as <-. exact Hn.
    + reflexivity.
    + discriminate.
  - (* float to boolean *)
    injection Hb as <-. unfold Apply._float_to_boolean in Hrun. rewrite Hnull in Hrun.
    cbn [py_real bind] in Hrun.
    destruct (sub_float ftol f) as (_ & _ & Hh & Hbool).
    destruct (@unforced_boolean f _ _ ftol v Hh Hbool Hrun) as (c & -> & Hc).
    split; [| split].
    + intros n Hv. injection Hv as <-. exact Hc.
    + discriminate.
    + discriminate.
  - (* complex to integer *)
    injection Hb as <-. unfold Apply._complex_to_integer in Hrun.
    rewrite Hnull in Hrun. cbn [py_real bind] in Hrun.
    destruct re as [q | | |];
      [| destruct round; discriminate Hrun .. | discriminate Hnull].
    destruct (sub_complex ftol (Fin q) im) as (Hg & Hs & _).
    assert (Hmono : c_abs_ltb (f_sub (f_of_Z (truncate q)) (Fin q))
                      (f_sub (Fin 0) im) ftol = true ->
                    c_abs_ltb (f_sub (f_of_Z (round_half_even q)) (Fin q))
                      (f_sub (Fin 0) im) ftol = true).
    { cbn [f_of_Z f_sub f_add f_neg]. apply c_abs_ltb_mono.
      exact (round_half_even_nearest q (truncate q)). }
    destruct (@unforced_integer q _ _ round ftol v Hg Hs Hmono Hrun) as [-> Hn].
    apply c_abs_ltb_parts in Hn. destruct Hn as [Hre Him].
    rewrite f_abs_sub_zero in Him.
    split; [| split].
    + intros n Hv. injection Hv as <-. exact Hre.
    + reflexivity.
    + intros re' im' Heq. injection Heq as _ <-. exact Him.
  - (* complex to float *)
    injection Hb as <-. unfold Apply._complex_to_float, Apply.imag_within in Hrun.
    rewrite Hnull in Hrun. cbn [or_else py_imag abs_lt as_num bind] in Hrun.
    destruct (f_ltb (f_abs im) ftol) eqn:Him; [| discriminate Hrun].
    cbn [py_real call_type bind] in Hrun. injection Hrun as <-.
    split; [| split].
    + discriminate.
    + discriminate.
    + intros re' im' Heq. injection Heq as _ <-. exact Him.
  - (* complex to boolean *)
    injection Hb as <-. unfold Apply._complex_to_boolean in Hrun.
    rewrite Hnull in Hrun. cbn [py_real bind] in Hrun.
    destruct (sub_complex ftol re im) as (_ & _ & Hh & Hbool).
    destruct (@unforced_boolean re _ _ ftol v Hh Hbool Hrun) as (c & -> & Hc).
    apply c_abs_ltb_parts in Hc. destruct Hc as [Hre Him].
    rewrite f_abs_sub_zero in Him.
    split; [| split].
    + intros n Hv. injection Hv as <-. exact Hre.
    + discriminate.
    + intros re' im' Heq. injection Heq as _ <-. exact Him.
  - (* complex to datetime *)
    injection Hb as <-. unfold Apply._complex_to_datetime, Apply.imag_within in Hrun.
    rewrite Hnull in Hrun. cbn [or_else py_imag abs_lt as_num bind] in Hrun.
    destruct (f_ltb (f_abs im) ftol) eqn:Him; [| discriminate Hrun].
    split; [| split].
    + intros n Hv. destruct v; try discriminate Hv;
        cbn [fromtimestamp_utc py_real call_type bind] in Hrun;
        destruct (us_of_seconds (PyFloat re)); discriminate Hrun.
    + intros z ->. cbn [fromtimestamp_utc py_real call_type bind] in Hrun.
      destruct (us_of_seconds (PyFloat re)); discriminate Hrun.
    + intros re' im' Heq. injection Heq as _ <-. exact Him.
  - (* complex to timedelta *)
    injection Hb as <-. unfold Apply._complex_to_timedelta, Apply.imag_within in Hrun.
    rewrite Hnull in Hrun. cbn [or_else py_imag abs_lt as_num bind] in Hrun.
    destruct (f_ltb (f_abs im) ftol) eqn:Him; [| discriminate Hrun].
    split; [| split].
    + intros n Hv. destruct v; try discriminate Hv;
        cbn [of_seconds py_real call_type bind] in Hrun;
        destruct (us_of_seconds (PyFloat re)); discriminate Hrun.
    + intros z ->. cbn [of_seconds py_real call_type bind] in Hrun.
      destruct (us_of_seconds (PyFloat re)); discriminate Hrun.
    + intros re' im' Heq. injection Heq as _ <-. exact Him.
  - (* datetime to integer *)
    unfold Apply._datetime_to_integer, Apply.utc_timestamp in Hrun.
    cbn [isnull] in Hrun.
    destruct (to_utc (PyDatetime d)) as [u | e]; [| discriminate Hb].
    destruct u; try discriminate Hb. cbn [bind py_timestamp] in *.
    injection Hb as <-.
    destruct (sub_float ftol (Fin (dt_epoch_us d0 # 1000000))) as (Hg & Hs & _).
    destruct (@unforced_integer _ _ _ round ftol v Hg Hs (real_gate_mono _ ftol) Hrun)
      as [-> Hn].
    split; [| split].
    + intros n Hv. injection Hv as <-. exact Hn.
    + reflexivity.
    + discriminate.
  - (* datetime to boolean *)
    unfold Apply._datetime_to_boolean, Apply.utc_timestamp, Apply.within_or_force in Hrun.
    cbn [isnull] in Hrun.
    destruct (to_utc (PyDatetime d)) as [u | e]; [| discriminate Hb].
    destruct u; try discriminate Hb. cbn [bind py_timestamp] in *.
    injection Hb as <-.
    cbn [call_type bind py_sub as_num num_re abs_lt] in Hrun.
    rewrite orb_false_r in Hrun.
    match type of Hrun with
    | context [f_ltb ?a ?t] => destruct (f_ltb a t) eqn:Hc; [| discriminate Hrun]
    end.
    injection Hrun as <-.
    split; [| split].
    + intros n Hv. injection Hv as <-. exact Hc.
    + discriminate.
    + discriminate.
  - (* timedelta to integer *)
    injection Hb as <-. unfold Apply._timedelta_to_integer in Hrun.
    cbn [isnull py_total_seconds bind] in Hrun.
    destruct (sub_float ftol (Fin (td_us t # 1000000))) as (Hg & Hs & _).
    destruct (@unforced_integer _ _ _ round ftol v Hg Hs (real_gate_mono _ ftol) Hrun)
      as [-> Hn].
    split; [| split].
    + intros n Hv. injection Hv as <-. exact Hn.
    + reflexivity.
    + discriminate.
  - (* timedelta to boolean *)
    injection Hb as <-.
    unfold Apply._timedelta_to_boolean, Apply.within_or_force in Hrun.
    cbn [isnull py_total_seconds call_type bind py_sub as_num num_re abs_lt] in Hrun.
    rewrite orb_false_r in Hrun.
    match type of Hrun with
    | context [f_ltb ?a ?t] => destruct (f_ltb a t) eqn:Hc; [| discriminate Hrun]
    end.
    injection Hrun as <-.
    split; [| split].
    + intros n Hv. injection Hv as <-. exact Hc.
    + discriminate.
    + discriminate.
Qed.

End WithinTolerance.

Section RoundTrips.
Context {E : Externals}.

Lemma same_within (n : Z) (t : Q) :
  (0 < t)%Q ->
  f_ltb (f_abs (f_sub (f_of_Z n) (f_of_Z n))) (Fin t) = true
  /\ c_abs_ltb (f_sub (f_of_Z n) (f_of_Z n)) (f_sub (Fin 0) (Fin 0)) (Fin t) = true.
Proof.
  intros Ht. cbn [f_of_Z f_sub f_add f_neg f_abs f_ltb c_abs_ltb]. split.
  - apply Qltb_lt. apply Qabs_case; intros; lra.
  - apply andb_true_iff. split; apply Qltb_lt; [exact Ht |]. nra.
Qed.

Lemma truth_of_bit (b : bool) : f_nonzero (f_of_Z (Z.b2z b)) = b.
Proof. destruct b; reflexivity. Qed.

Lemma narrow_bit (b : bool) (y : pyval) (h : pyfloat -> bool) (ftol : pyfloat) :
  (forall u, (d <- py_sub (PyFloat u) y ;; abs_lt d ftol) = Return (h u)) ->
  (forall c, (d <- py_sub (PyBool c) y ;; abs_lt d ftol)
             = Return (h (f_of_Z (Z.b2z c)))) ->
  h (f_of_Z (Z.b2z b)) = true ->
  Apply.narrow_to_boolean (PyFloat (f_of_Z (Z.b2z b))) y false ftol TBool
  = Return (PyBool b).
Proof.
  intros Hh Hb Hin. unfold Apply.narrow_to_boolean.
  assert (Hr : np_round_f (f_of_Z (Z.b2z b)) = f_of_Z (Z.b2z b)).
  { unfold f_of_Z. cbn [np_round_f]. rewrite round_half_even_inject_Z. reflexivity. }
  cbn [np_round bind]. rewrite Hh, Hr. cbn [bind].
  rewrite Hin. cbn [call_type bind]. rewrite truth_of_bit.
  cbn [or_else]. rewrite Hb, Hin. reflexivity.
Qed.

(** A boolean survives the passage through an integer, a float or a complex
    number and back, without [force], for every positive tolerance. *)
Theorem boolean_round_trips (b : bool) (t : Q) :
  (0 < t)%Q ->
  (x <- Apply._boolean_to_integer (PyBool b) TInt ;;
   Apply.integer_to_boolean x false TBool) = Return (PyBool b)
  /\ (x <- Apply._boolean_to_float (PyBool b) TFloat ;;
      Apply._float_to_boolean x false (Fin t) TBool) = Return (PyBool b)
  /\ (x <- Apply._boolean_to_complex (PyBool b) TComplex ;;
      Apply._complex_to_boolean x false (Fin t) TBool) = Return (PyBool b).
Proof.
  intros Ht. destruct (same_within (Z.b2z b) Ht) as [Hre Hc].
  split; [destruct b; reflexivity |].
  split.
  - unfold Apply._boolean_to_float, Apply._float_to_boolean.
    cbn [isnull call_type bind f_of_Z f_is_nan py_real].
    change (Fin (inject_Z (Z.b2z b))) with (f_of_Z (Z.b2z b)).
    destruct (sub_float (Fin t) (f_of_Z (Z.b2z b))) as (_ & _ & Hh & Hb).
    eapply narrow_bit; [exact Hh | exact Hb | exact Hre].
  - unfold Apply._boolean_to_complex, Apply._complex_to_boolean.
    cbn [isnull call_type bind f_of_Z f_is_nan orb py_real].
    change (Fin (inject_Z (Z.b2z b))) with (f_of_Z (Z.b2z b)).
    destruct (sub_complex (Fin t) (f_of_Z (Z.b2z b)) (Fin 0)) as (_ & _ & Hh & Hb).
    eapply narrow_bit; [exact Hh | exact Hb | exact Hc].
Qed.

End RoundTrips.

Section Temporal.
Context {E : Externals}.






End Temporal.

(** ** Closed instances of the properties above *)


Lemma parse_string_raises_witness :
  Parse.parse_string (E := overflowing_externals) "abc" = Raise OverflowError
  /\ OverflowError <> ValueError
  /\ pd_to_timedelta (Externals := overflowing_externals) "abc" = Raise OverflowError.
Proof.
  assert (H : Parse.parse_string (E := overflowing_externals) "abc"
              = Raise OverflowError) by reflexivity.
  destruct (parse_string_raises (E := overflowing_externals) "abc" H) as (Hv & _).
  exact (conj H (conj Hv eq_refl)).
Defined.

Lemma force_keeps_results_witness :
  run_narrowing (E := Sample.externals) FloatToInteger
    (PyFloat (Fin (20000001 # 10000000))) false false default_ftol = Return (PyInt 2)
  /\ run_narrowing (E := Sample.externals) FloatToInteger
       (PyFloat (Fin (20000001 # 10000000))) false true default_ftol = Return (PyInt 2).
Proof.
  assert (H : run_narrowing (E := Sample.externals) FloatToInteger
                (PyFloat (Fin (20000001 # 10000000))) false false default_ftol
              = Return (PyInt 2)) by reflexivity.
  exact (conj H (force_keeps_results (E := Sample.externals) FloatToInteger _ _ _ H)).
Defined.

Lemma narrowing_within_tolerance_witness :
  let x := Fin (20000001 # 10000000) in
  isnull (PyFloat x) = false
  /\ bridge (E := Sample.externals) FloatToInteger (PyFloat x) = Return x
  /\ run_narrowing (E := Sample.externals) FloatToInteger (PyFloat x) false false
       default_ftol = Return (PyInt 2)
  /\ f_ltb (f_abs (f_sub (f_of_Z 2) x)) default_ftol = true
  /\ forced_candidate FloatToInteger true x = Some (PyInt 2).
Proof.
  intros x.
  assert (H : run_narrowing (E := Sample.externals) FloatToInteger (PyFloat x)
                false false default_ftol = Return (PyInt 2)) by reflexivity.
  destruct (narrowing_within_tolerance (E := Sample.externals) FloatToInteger
              (PyFloat x) false default_ftol eq_refl eq_refl H) as (Hn & Hc & _).
  exact (conj eq_refl (conj eq_refl (conj H (conj (Hn _ eq_refl) (Hc _ eq_refl))))).
Defined.

Lemma boolean_round_trips_witness :
  (0 < 1 # 1000000)%Q
  /\ (x <- Apply._boolean_to_float (E := Sample.externals) (PyBool true) TFloat ;;
      Apply._float_to_boolean (E := Sample.externals) x false default_ftol TBool)
     = Return (PyBool true).
Proof.
  assert (Ht : (0 < 1 # 1000000)%Q) by reflexivity.
  destruct (boolean_round_trips (E := Sample.externals) true Ht) as (_ & Hf & _).
  exact (conj Ht Hf).
Defined.


